(** * Saving and loading models: the checkpoint cells of
      [6_Saving_and_Loading_Models.ipynb]

    The notebook saves a trained [fc_model.Network] to ['checkpoint.pth'] and
    rebuilds it with [load_checkpoint].  The development below embeds the cells
    that do this (the bare [torch.save] of a state dict, the failing
    [load_state_dict] into a differently shaped network, the composite
    [checkpoint] dictionary and [load_checkpoint]) as functions in a state and
    exception monad over a store of live model objects, a file system and the
    random generator that initialises fresh layers. *)

From Stdlib Require Import ZArith String Ascii DecimalString DecimalNat.
From stdpp Require Import base numbers list strings gmap.

(** ** Tensors

    A tensor is its size together with its flat storage.  Elements are
    float32 values kept as their 32 bit patterns, so that NaN payloads and
    the two infinities are ordinary, comparable data. *)

Record Tensor := mkTensor { shape : list Z; data : list Z }.

Definition f32_exponent (b : Z) : Z := Z.land (Z.shiftr b 23) 255.
Definition f32_mantissa (b : Z) : Z := Z.land b 8388607.

Definition is_nan (b : Z) : bool :=
  (f32_exponent b =? 255)%Z && negb (f32_mantissa b =? 0)%Z.
Definition is_inf (b : Z) : bool :=
  (f32_exponent b =? 255)%Z && (f32_mantissa b =? 0)%Z.
Definition non_finite (b : Z) : bool := is_nan b || is_inf b.

(** Number of elements of a tensor of the given size. *)
Definition numel (sh : list Z) : nat := Z.to_nat (foldr Z.mul 1%Z sh).

(** ** Python values that reach a checkpoint file

    [torch.load] returns whatever object was pickled.  The objects the
    notebook writes are integers, lists of integers, tensors and
    dictionaries with string keys (insertion ordered). *)

#[warnings="-register-all"]
Inductive PyVal :=
| VInt (n : Z)
| VIntList (l : list Z)
| VTensor (t : Tensor)
| VDict (d : list (string * PyVal)).

(** [d[key]] and [key in d] on an insertion-ordered dictionary. *)
Fixpoint dict_get {V} (key : string) (d : list (string * V)) : option V :=
  match d with
  | [] => None
  | (k, v) :: d' => if String.eqb key k then Some v else dict_get key d'
  end.

Definition dict_keys {V} (d : list (string * V)) : list string := d.*1.

Definition dict_has {V} (key : string) (d : list (string * V)) : bool :=
  match dict_get key d with Some _ => true | None => false end.

(** [del d[key]]. *)
Definition dict_remove {V} (key : string) (d : list (string * V))
  : list (string * V) :=
  filter (λ kv, kv.1 ≠ key) d.

(** ** Exceptions *)

(** One entry of the [error_msgs] list that [load_state_dict] joins into the
    text of its [RuntimeError]. *)
Inductive load_msg :=
| MissingKeys (keys : list string)
| UnexpectedKeys (keys : list string)
| SizeMismatch (key : string) (checkpoint_shape model_shape : list Z)
| NotTensor (key : string).

Inductive PyError :=
| FileNotFoundError (path : string)
| KeyError (key : string)
| TypeError
| AttributeError
| IndexError
| NameError
| RuntimeError (error_msgs : list load_msg).

(** The class name under which a caller can catch the exception. *)
Definition error_name (e : PyError) : string :=
  match e with
  | FileNotFoundError _ => "FileNotFoundError"
  | KeyError _ => "KeyError"
  | TypeError => "TypeError"
  | AttributeError => "AttributeError"
  | IndexError => "IndexError"
  | NameError => "NameError"
  | RuntimeError _ => "RuntimeError"
  end.

Inductive Result (A : Type) :=
| Ok (a : A)
| Raise (e : PyError).
Arguments Ok {A} a.
Arguments Raise {A} e.

(** ** The model objects *)

(** [nn.Linear]: the two size attributes and the two parameters. *)
Record Linear := mkLinear {
  in_features : Z;
  out_features : Z;
  weight : Tensor;
  bias : Tensor
}.

(** Modelled from the spec: [fc_model.Network] is imported by the notebook but
    its file is not among the sources.  Its fields follow the module listing
    the notebook prints ([hidden_layers], a [ModuleList] of [Linear]; [output],
    a [Linear]; [dropout], which owns no parameter) and the shapes of section 3
    of the specification. *)
Record Network := mkNetwork {
  hidden_layers : list Linear;
  output : Linear
}.

(** ** The world: live objects, files, random generator *)

Record State := mkState {
  models : list Network;          (* live model objects, addressed by index *)
  files : gmap string PyVal;      (* path -> pickled object *)
  rng : nat → Z;                  (* the stream of the global generator *)
  drawn : nat                     (* how much of it was consumed *)
}.

Definition M (A : Type) : Type := State → Result A * State.

Global Instance M_ret : MRet M := λ A a st, (Ok a, st).
Global Instance M_bind : MBind M := λ A B f m st,
  match m st with
  | (Ok a, st') => f a st'
  | (Raise e, st') => (Raise e, st')
  end.

Definition raise {A} (e : PyError) : M A := λ st, (Raise e, st).

(** Dereference a model variable. *)
Definition deref (model : nat) : M Network := λ st,
  match models st !! model with
  | Some m => (Ok m, st)
  | None => (Raise NameError, st)
  end.

(** Allocate a new model object. *)
Definition alloc (m : Network) : M nat := λ st,
  (Ok (length (models st)),
   mkState (models st ++ [m]) (files st) (rng st) (drawn st)).

(** In-place update of a live model object. *)
Definition store (model : nat) (m : Network) : M unit := λ st,
  (Ok tt, mkState (<[model := m]> (models st)) (files st) (rng st) (drawn st)).

(** A freshly initialised tensor: its elements are the next [numel] draws.
    Only sizes a tensor can have are modelled: torch refuses a negative
    dimension, and one beyond the address space, inside [nn.Linear]; here
    such a call returns a tensor instead of raising. *)
Definition fresh_tensor (sh : list Z) : M Tensor := λ st,
  let n := numel sh in
  (Ok (mkTensor sh (map (rng st) (seq (drawn st) n))),
   mkState (models st) (files st) (rng st) (drawn st + n)).

(** ** torch.save / torch.load

    The file system is a map from paths to objects: [torch.save] pickles the
    object, tensors with their raw storage, and [torch.load] reads back an
    equal object.  Every path is writable; reading a path that was never
    written raises. *)
Definition torch_save (obj : PyVal) (path : string) : M unit := λ st,
  (Ok tt, mkState (models st) (<[path := obj]> (files st)) (rng st) (drawn st)).

Definition torch_load (path : string) : M PyVal := λ st,
  match files st !! path with
  | Some obj => (Ok obj, st)
  | None => (Raise (FileNotFoundError path), st)
  end.

(** [checkpoint[key]] with a string key.  A dict looks the key up; a tensor
    refuses a string index with an [IndexError]; an int or a list of ints
    with a [TypeError]. *)
Definition getitem (obj : PyVal) (key : string) : M PyVal :=
  match obj with
  | VDict d =>
      match dict_get key d with
      | Some v => mret v
      | None => raise (KeyError key)
      end
  | VTensor _ => raise IndexError
  | _ => raise TypeError
  end.

(** ** Dotted keys *)

(** [str(i)], the name a [ModuleList] gives its i-th child. *)
Definition str (i : nat) : string := NilEmpty.string_of_uint (Nat.to_uint i).

(** [key.startswith(prefix)]. *)
Fixpoint startswith (prefix key : string) : bool :=
  match prefix, key with
  | EmptyString, _ => true
  | String a p, String b k => Ascii.eqb a b && startswith p k
  | String _ _, EmptyString => false
  end.

(** [key[n:]]. *)
Fixpoint string_drop (n : nat) (key : string) : string :=
  match n, key with
  | O, _ => key
  | S n', String _ k => string_drop n' k
  | S _, EmptyString => EmptyString
  end.

(** [s.split('.', 1)[0]]. *)
Fixpoint split_head (s : string) : string :=
  match s with
  | EmptyString => EmptyString
  | String c s' => if Ascii.eqb c "." then EmptyString else String c (split_head s')
  end.

Definition hidden_prefix (i : nat) : string := "hidden_layers." +:+ str i +:+ ".".

(** ** Building a network *)

(** [nn.Linear(in_features, out_features)]: a weight of size
    [(out_features, in_features)] and a bias of size [(out_features)], both
    randomly initialised. *)
Definition nn_Linear (i o : Z) : M Linear :=
  w ← fresh_tensor [o; i];
  b ← fresh_tensor [o];
  mret (mkLinear i o w b).

(** Modelled from the spec: the layers of [fc_model.Network(input_size,
    output_size, hidden_layers)], whose file is not among the sources.  By
    section 3, hidden layer [i] maps [hidden_layer_sizes[i-1]] (or [input_size]
    for the first) to [hidden_layer_sizes[i]]. *)
Fixpoint hidden_stack (prev : Z) (sizes : list Z) : M (list Linear) :=
  match sizes with
  | [] => mret []
  | h :: sizes' =>
      l ← nn_Linear prev h;
      ls ← hidden_stack h sizes';
      mret (l :: ls)
  end.

(** Modelled from the spec: the constructor [fc_model.Network], whose file is
    not among the sources.  The output layer maps [hidden_layer_sizes[-1]] to
    [output_size]; that index does not exist in an empty list, which the
    specification excludes, and the constructor raises there.  Returns a
    reference to the new object. *)
Definition fc_model_Network (input_size output_size : Z) (sizes : list Z)
  : M nat :=
  match sizes with
  | [] => raise IndexError
  | _ :: _ =>
      ls ← hidden_stack input_size sizes;
      out ← nn_Linear (List.last sizes input_size) output_size;
      alloc (mkNetwork ls out)
  end.

(** The constructor applied to objects read from a checkpoint. *)
Definition Network_call (input_size output_size sizes : PyVal) : M nat :=
  match input_size, output_size, sizes with
  | VInt i, VInt o, VIntList hs => fc_model_Network i o hs
  | _, _, _ => raise TypeError
  end.

(** ** model.state_dict() *)

Definition linear_state (prefix : string) (l : Linear)
  : list (string * Tensor) :=
  [(prefix +:+ "weight", weight l); (prefix +:+ "bias", bias l)].

Fixpoint hidden_state (i : nat) (ls : list Linear) : list (string * Tensor) :=
  match ls with
  | [] => []
  | l :: ls' => linear_state (hidden_prefix i) l ++ hidden_state (S i) ls'
  end.

Definition state_dict (m : Network) : list (string * Tensor) :=
  hidden_state 0 (hidden_layers m) ++ linear_state "output." (output m).

Definition state_dict_val (m : Network) : PyVal :=
  VDict (prod_map id VTensor <$> state_dict m).

(** ** model.load_state_dict(state_dict, strict=True)

    The method of [torch.nn.Module] (torch 1.10, the version whose traceback
    the notebook shows).  It walks the module tree; at every module it copies
    each parameter found under its key when the sizes agree, and records size
    mismatches, missing keys and unexpected keys.  Only at the end does it
    raise, so the parameters that did agree have been overwritten by then.
    The parameters of [Linear] have rank 2 and 1: the step torch keeps for
    rank 0 parameters of old checkpoints does not concern them.  An entry
    that is no tensor is recorded as a message, as torch does from 1.11 on;
    torch 1.10 raises an [AttributeError] at that entry instead.  Records of
    tensors, which is what [state_dict] returns, behave the same in both. *)

(** [param.copy_(input_param)]. *)
Definition copy_ (param input_param : Tensor) : Tensor :=
  mkTensor (shape param) (data input_param).

Definition load_param (sd : list (string * PyVal)) (key : string)
    (param : Tensor) : Tensor * list string * list load_msg :=
  match dict_get key sd with
  | Some (VTensor input_param) =>
      if decide (shape input_param = shape param)
      then (copy_ param input_param, [], [])
      else (param, [], [SizeMismatch key (shape input_param) (shape param)])
  | Some _ => (param, [], [NotTensor key])
  | None => (param, [key], [])
  end.

Definition load_linear (sd : list (string * PyVal)) (prefix : string)
    (l : Linear) : Linear * list string * list load_msg :=
  let '(w, mk1, em1) := load_param sd (prefix +:+ "weight") (weight l) in
  let '(b, mk2, em2) := load_param sd (prefix +:+ "bias") (bias l) in
  (mkLinear (in_features l) (out_features l) w b, mk1 ++ mk2, em1 ++ em2).

Fixpoint load_hidden (sd : list (string * PyVal)) (i : nat) (ls : list Linear)
  : list Linear * list string * list load_msg :=
  match ls with
  | [] => ([], [], [])
  | l :: ls' =>
      let '(l', mk1, em1) := load_linear sd (hidden_prefix i) l in
      let '(ls'', mk2, em2) := load_hidden sd (S i) ls' in
      (l' :: ls'', mk1 ++ mk2, em1 ++ em2)
  end.

(** The name of the parameter or child a key addresses below [prefix]. *)
Definition input_name (prefix key : string) : string :=
  split_head (string_drop (String.length prefix) key).

(** The keys one module reports as unexpected: its extra-state key, then
    every other key under its prefix that names neither a child nor a
    parameter of the module. *)
Definition unexpected_at (keys : list string) (prefix : string)
    (known : list string) : list string :=
  let extra_state_key := prefix +:+ "_extra_state" in
  (if decide (extra_state_key ∈ keys) then [extra_state_key] else []) ++
  filter (λ key, startswith prefix key = true ∧ key ≠ extra_state_key ∧
                 input_name prefix key ∉ known) keys.

Definition linear_params : list string := ["weight"; "bias"].

(** The modules of a network with [n] hidden layers, in the order torch
    visits them: the root, the [ModuleList], its children, [output],
    [dropout]. *)
Definition unexpected_keys (n : nat) (keys : list string) : list string :=
  unexpected_at keys "" ["hidden_layers"; "output"; "dropout"] ++
  unexpected_at keys "hidden_layers." (str <$> seq 0 n) ++
  concat ((λ i, unexpected_at keys (hidden_prefix i) linear_params) <$> seq 0 n) ++
  unexpected_at keys "output." linear_params ++
  unexpected_at keys "dropout." [].

(** The messages that make the call fail. *)
Definition final_msgs (strict : bool) (missing unexpected : list string)
    (error_msgs : list load_msg) : list load_msg :=
  if strict then
    (if missing is [] then [] else [MissingKeys missing]) ++
    (if unexpected is [] then [] else [UnexpectedKeys unexpected]) ++
    error_msgs
  else error_msgs.

(** Returns the two key lists of torch's [_IncompatibleKeys]. *)
Definition load_state_dict (model : nat) (state_dict : PyVal) (strict : bool)
  : M (list string * list string) :=
  match state_dict with
  | VDict sd =>
      m ← deref model;
      let '(hl, mk1, em1) := load_hidden sd 0 (hidden_layers m) in
      let '(out, mk2, em2) := load_linear sd "output." (output m) in
      let unexpected := unexpected_keys (length (hidden_layers m)) (dict_keys sd) in
      store model (mkNetwork hl out);;
      match final_msgs strict (mk1 ++ mk2) unexpected (em1 ++ em2) with
      | [] => mret (mk1 ++ mk2, unexpected)
      | msgs => raise (RuntimeError msgs)
      end
  | _ => raise AttributeError
  end.

(** ** The cells of the notebook *)

(** [torch.save(model.state_dict(), 'checkpoint.pth')]. *)
Definition save_state_dict (model : nat) : M unit :=
  m ← deref model;
  torch_save (state_dict_val m) "checkpoint.pth".

(** [state_dict = torch.load('checkpoint.pth')]. *)
Definition load_state_dict_file : M PyVal := torch_load "checkpoint.pth".

(** The cell marked "Try this":
    [model = fc_model.Network(784, 10, [400, 200, 100])] followed by
    [model.load_state_dict(state_dict)]. *)
Definition try_this (state_dict : PyVal) : M nat :=
  model ← fc_model_Network 784 10 [400; 200; 100]%Z;
  load_state_dict model state_dict true;;
  mret model.

(** The [checkpoint] dictionary. *)
Definition checkpoint (m : Network) : PyVal :=
  VDict [("input_size", VInt 784);
         ("output_size", VInt 10);
         ("hidden_layers", VIntList (out_features <$> hidden_layers m));
         ("state_dict", state_dict_val m)].

(** The cell that builds [checkpoint] from [model] and saves it.  The
    dictionary is pickled at once: what the file holds are the values of the
    parameters at that moment. *)
Definition save_checkpoint (model : nat) : M unit :=
  m ← deref model;
  torch_save (checkpoint m) "checkpoint.pth".

Definition load_checkpoint (filepath : string) : M nat :=
  checkpoint ← torch_load filepath;
  input_size ← getitem checkpoint "input_size";
  output_size ← getitem checkpoint "output_size";
  sizes ← getitem checkpoint "hidden_layers";
  model ← Network_call input_size output_size sizes;
  state_dict ← getitem checkpoint "state_dict";
  load_state_dict model state_dict true;;
  mret model.

(** The notebook's [load_checkpoint] has the file path as its only argument;
    whatever strictness a caller would like, the call it can make is this
    one. *)
Definition load (strict : bool) (filepath : string) : M nat :=
  load_checkpoint filepath.

(** ** Architecture descriptor and shape invariant (specification, section 3) *)

Record Descriptor := mkDescriptor {
  input_size : Z;
  output_size : Z;
  hidden_layer_sizes : list Z
}.

(** The architecture a live model exposes.  The hidden sizes are read the way
    the [checkpoint] cell reads them. *)
Definition descriptor (m : Network) : Descriptor :=
  mkDescriptor
    (match hidden_layers m with
     | l :: _ => in_features l
     | [] => in_features (output m)
     end)
    (out_features (output m))
    (out_features <$> hidden_layers m).

Definition valid_descriptor (d : Descriptor) : Prop :=
  (0 < input_size d)%Z ∧ (0 < output_size d)%Z ∧
  hidden_layer_sizes d ≠ [] ∧ Forall (λ h, 0 < h)%Z (hidden_layer_sizes d).

Fixpoint hidden_shapes (i : nat) (prev : Z) (sizes : list Z)
  : list (string * list Z) :=
  match sizes with
  | [] => []
  | h :: sizes' =>
      (hidden_prefix i +:+ "weight", [h; prev]) ::
      (hidden_prefix i +:+ "bias", [h]) :: hidden_shapes (S i) h sizes'
  end.

(** The keys a descriptor requires, each with the size its array must have. *)
Definition expected_shapes (d : Descriptor) : list (string * list Z) :=
  hidden_shapes 0 (input_size d) (hidden_layer_sizes d) ++
  [("output.weight",
    [output_size d; List.last (hidden_layer_sizes d) (input_size d)]);
   ("output.bias", [output_size d])].

Definition required_keys (d : Descriptor) : list string :=
  (expected_shapes d).*1.

Definition shapes_of (sd : list (string * Tensor)) : list (string * list Z) :=
  prod_map id shape <$> sd.

(** A parameter record matches a descriptor. *)
Definition shapes_match (d : Descriptor) (sd : list (string * Tensor)) : Prop :=
  shapes_of sd = expected_shapes d.

(** A model whose architecture is a valid descriptor and whose parameter
    arrays have the shapes that descriptor implies. *)
Definition well_shaped (m : Network) : Prop :=
  valid_descriptor (descriptor m) ∧ shapes_match (descriptor m) (state_dict m).

Definition tensor_vals (sd : list (string * Tensor)) : list (string * PyVal) :=
  prod_map id VTensor <$> sd.

(** A checkpoint file with the four fields of the [checkpoint] cell. *)
Definition checkpoint_of (d : Descriptor) (sd : list (string * PyVal)) : PyVal :=
  VDict [("input_size", VInt (input_size d));
         ("output_size", VInt (output_size d));
         ("hidden_layers", VIntList (hidden_layer_sizes d));
         ("state_dict", VDict sd)].

(** The shape invariant between the descriptor and the parameter record of a
    checkpoint. *)
Definition checkpoint_invariant (cp : PyVal) : Prop :=
  ∃ d sd, cp = checkpoint_of d (tensor_vals sd) ∧ shapes_match d sd.

(** ** Statements about save and load *)

(** Saving the model behind [model] and loading the file back gives a model
    with the same architecture fields and the same parameter arrays. *)
Definition round_trip (st : State) (model : nat) (m : Network) : Prop :=
  ∃ a' st' m',
    load_checkpoint "checkpoint.pth" (save_checkpoint model st).2 = (Ok a', st') ∧
    models st' !! a' = Some m' ∧
    input_size (descriptor m') = input_size (descriptor m) ∧
    output_size (descriptor m') = output_size (descriptor m) ∧
    hidden_layer_sizes (descriptor m') = hidden_layer_sizes (descriptor m) ∧
    state_dict m' = state_dict m.

(** Every non-finite entry of a parameter array of [m] is found again in
    [m'], under the same key, at the same position, bit for bit. *)
Definition preserves_non_finite (m m' : Network) : Prop :=
  ∀ key t i b,
    dict_get key (state_dict m) = Some t → data t !! i = Some b →
    non_finite b = true →
    ∃ t', dict_get key (state_dict m') = Some t' ∧ shape t' = shape t ∧
          data t' !! i = Some b.

Definition non_finite_round_trip (st : State) (model : nat) (m : Network)
  : Prop :=
  ∃ a' st' m',
    load_checkpoint "checkpoint.pth" (save_checkpoint model st).2 = (Ok a', st') ∧
    models st' !! a' = Some m' ∧ preserves_non_finite m m'.

(** Every parameter array of [m] that holds a NaN or an infinity is found
    again in [m'] under the same key, the whole array bit for bit. *)
Definition reproduces_non_finite_arrays (m m' : Network) : Prop :=
  ∀ key t,
    dict_get key (state_dict m) = Some t →
    (∃ i b, data t !! i = Some b ∧ non_finite b = true) →
    dict_get key (state_dict m') = Some t.

(** Save then load returns a model with every parameter array of [m], those
    with non-finite entries among them. *)
Definition exact_round_trip (st : State) (model : nat) (m : Network) : Prop :=
  ∃ a' st' m',
    load_checkpoint "checkpoint.pth" (save_checkpoint model st).2 = (Ok a', st') ∧
    models st' !! a' = Some m' ∧
    state_dict m' = state_dict m ∧
    reproduces_non_finite_arrays m m' ∧
    preserves_non_finite m m'.

(** The checkpoint the save cell writes for [m] satisfies the shape
    invariant, is the content of the file, and loads. *)
Definition saved_checkpoint_is_consistent (st : State) (model : nat)
    (m : Network) : Prop :=
  checkpoint_invariant (checkpoint m) ∧
  files (save_checkpoint model st).2 !! "checkpoint.pth" = Some (checkpoint m) ∧
  ∃ a' st',
    load_checkpoint "checkpoint.pth" (save_checkpoint model st).2 = (Ok a', st').

(** Two calls of [load_checkpoint] ended the same way: the same exception, or
    two references to equal models. *)
Definition same_outcome (r1 r2 : Result nat * State) : Prop :=
  match r1.1, r2.1 with
  | Ok a1, Ok a2 =>
      ∃ m, models r1.2 !! a1 = Some m ∧ models r2.2 !! a2 = Some m
  | Raise e1, Raise e2 => e1 = e2
  | _, _ => False
  end.

(** Two calls of [load_checkpoint] both returned a model, the two models are
    equal, and they have the architecture and the parameter arrays of [m]. *)
Definition reconstruct_equal_models (m : Network) (r1 r2 : Result nat * State)
  : Prop :=
  ∃ a1 a2 m',
    r1.1 = Ok a1 ∧ r2.1 = Ok a2 ∧
    models r1.2 !! a1 = Some m' ∧ models r2.2 !! a2 = Some m' ∧
    state_dict m' = state_dict m ∧ descriptor m' = descriptor m.

Definition reports_missing (key : string) (e : PyError) : Prop :=
  ∃ msgs keys, e = RuntimeError msgs ∧ MissingKeys keys ∈ msgs ∧ key ∈ keys.

Definition reports_unexpected (key : string) (e : PyError) : Prop :=
  ∃ msgs keys, e = RuntimeError msgs ∧ UnexpectedKeys keys ∈ msgs ∧ key ∈ keys.

(** [load_checkpoint] looks [key] up before it constructs a model: when the
    field is absent from the file, the call ends in a [KeyError] and the
    store of live objects is as before. *)
Definition read_before_construction (key : string) : Prop :=
  ∀ st path d,
    files st !! path = Some (VDict d) → dict_get key d = None →
    ∃ k st', load_checkpoint path st = (Raise (KeyError k), st') ∧
             models st' = models st.

(** ** Auxiliary notions for the proofs *)

Definition write_file (path : string) (obj : PyVal) (st : State) : State :=
  mkState (models st) (<[path := obj]> (files st)) (rng st) (drawn st).

Definition after_alloc (st : State) (m : Network) (n : nat) : State :=
  mkState (models st ++ [m]) (files st) (rng st) (drawn st + n).

Fixpoint dotless (s : string) : Prop :=
  match s with
  | EmptyString => True
  | String c s' => Ascii.eqb c "." = false ∧ dotless s'
  end.

(** Layers as the constructor leaves them, whatever the generator drew. *)
Definition fresh_linear (i o : Z) (l : Linear) : Prop :=
  in_features l = i ∧ out_features l = o ∧
  shape (weight l) = [o; i] ∧ shape (bias l) = [o].

Fixpoint fresh_layers (prev : Z) (sizes : list Z) (ls : list Linear) : Prop :=
  match sizes, ls with
  | [], [] => True
  | h :: sizes', l :: ls' => fresh_linear prev h l ∧ fresh_layers h sizes' ls'
  | _, _ => False
  end.

(** The keys of the state dict of a network with [n] hidden layers. *)
Definition model_key (n : nat) (key : string) : Prop :=
  (∃ i name, i < n ∧ name ∈ linear_params ∧ key = hidden_prefix i +:+ name) ∨
  (∃ name, name ∈ linear_params ∧ key = "output." +:+ name).

(** The part of [load_checkpoint] that runs before a model exists, as a
    function of the file alone: the three architecture fields, or the
    exception raised while reading them or entering the constructor. *)
Definition checkpoint_arch (path : string) (file : option PyVal)
  : Result (Z * Z * list Z) :=
  match file with
  | None => Raise (FileNotFoundError path)
  | Some (VDict d) =>
      match dict_get "input_size" d with
      | None => Raise (KeyError "input_size")
      | Some v1 =>
          match dict_get "output_size" d with
          | None => Raise (KeyError "output_size")
          | Some v2 =>
              match dict_get "hidden_layers" d with
              | None => Raise (KeyError "hidden_layers")
              | Some v3 =>
                  match v1, v2, v3 with
                  | VInt i, VInt o, VIntList (h :: sizes) => Ok (i, o, h :: sizes)
                  | VInt _, VInt _, VIntList [] => Raise IndexError
                  | _, _, _ => Raise TypeError
                  end
              end
          end
      end
  | Some (VTensor _) => Raise IndexError
  | Some _ => Raise TypeError
  end.

(** What [load_checkpoint] computes once the fresh layers [ls0] and [out0]
    exist: the network after the copies and the messages of the failure, if
    any. *)
Definition load_result (sd : list (string * PyVal)) (ls0 : list Linear)
    (out0 : Linear) : Network * list load_msg :=
  let '(hl, mk1, em1) := load_hidden sd 0 ls0 in
  let '(out, mk2, em2) := load_linear sd "output." out0 in
  (mkNetwork hl out,
   final_msgs true (mk1 ++ mk2)
     (unexpected_keys (length ls0) (dict_keys sd)) (em1 ++ em2)).

(** Two runs of the copying loop that report the same keys and messages and,
    when they report nothing, leave the same parameters. *)
Definition agree {A} (r1 r2 : A * list string * list load_msg) : Prop :=
  r1.1.2 = r2.1.2 ∧ r1.2 = r2.2 ∧ (r1.1.2 = [] → r1.2 = [] → r1.1.1 = r2.1.1).

(** ** Concrete worlds *)

(** Nothing live, no file, a generator that draws zero bits. *)
Definition world0 : State := mkState [] ∅ (λ _, 0%Z) 0.

Definition no_model : Network :=
  mkNetwork [] (mkLinear 0 0 (mkTensor [] []) (mkTensor [] [])).

Definition model_at (st : State) (a : nat) : Network :=
  default no_model (models st !! a).

(** The world after [model = fc_model.Network(i, o, sizes)]. *)
Definition built (i o : Z) (sizes : list Z) : State :=
  (fc_model_Network i o sizes world0).2.

(** A network with 3 inputs, one hidden layer of 4 units and 2 outputs. *)
Definition small_model : Network :=
  mkNetwork
    [mkLinear 3 4 (mkTensor [4; 3]%Z (repeat 0%Z 12)) (mkTensor [4]%Z (repeat 0%Z 4))]
    (mkLinear 4 2 (mkTensor [2; 4]%Z (repeat 0%Z 8)) (mkTensor [2]%Z (repeat 0%Z 2))).

Definition small_world : State := mkState [small_model] ∅ (λ _, 0%Z) 0.

(** [small_world] after the save cell ran on its model. *)
Definition small_saved : State := (save_checkpoint 0 small_world).2.

(** A checkpoint file that has the three architecture fields and no
    ['state_dict']. *)
Definition headless_world : State :=
  mkState [] {[ "checkpoint.pth" :=
                VDict [("input_size", VInt 784); ("output_size", VInt 10);
                       ("hidden_layers", VIntList [1%Z])] ]}
    (λ _, 0%Z) 0.

(** The descriptor and the parameter record of a 784-2-10 network. *)
Definition arch2 : Descriptor := mkDescriptor 784 10 [2%Z].

Definition record2 : list (string * PyVal) :=
  tensor_vals (state_dict (model_at (built 784 10 [2]%Z) 0)).

(** Its checkpoint with ['output.bias'] deleted from the record. *)
Definition pruned_world : State :=
  write_file "checkpoint.pth"
    (checkpoint_of arch2 (dict_remove "output.bias" record2)) world0.

(** Its checkpoint with one more entry, ['extra'], in the record. *)
Definition extra_world : State :=
  write_file "checkpoint.pth"
    (checkpoint_of arch2 (record2 ++ [("extra", VTensor (mkTensor [1%Z] [0%Z]))]))
    world0.

(** Its checkpoint with an extra entry below a parameter's own key. *)
Definition nested_extra_world : State :=
  write_file "checkpoint.pth"
    (checkpoint_of arch2
       (record2 ++ [("output.weight.old", VTensor (mkTensor [1%Z] [0%Z]))]))
    world0.

(** The architecture the notebook trains and the one of its "Try this"
    cell. *)
Definition arch512 : Descriptor := mkDescriptor 784 10 [512; 256; 128]%Z.
Definition arch400 : Descriptor := mkDescriptor 784 10 [400; 200; 100]%Z.

(** The messages of the [RuntimeError] the notebook shows for that cell. *)
Definition size_mismatches : list load_msg :=
  [SizeMismatch "hidden_layers.0.weight" [512; 784]%Z [400; 784]%Z;
   SizeMismatch "hidden_layers.0.bias" [512]%Z [400]%Z;
   SizeMismatch "hidden_layers.1.weight" [256; 512]%Z [200; 400]%Z;
   SizeMismatch "hidden_layers.1.bias" [256]%Z [200]%Z;
   SizeMismatch "hidden_layers.2.weight" [128; 256]%Z [100; 200]%Z;
   SizeMismatch "hidden_layers.2.bias" [128]%Z [100]%Z;
   SizeMismatch "output.weight" [10; 128]%Z [10; 100]%Z].

(** The parameter record of a freshly built 784-512-256-128-10 network. *)
Definition record512 : list (string * Tensor) :=
  state_dict (model_at (built 784 10 [512; 256; 128]%Z) 0).

(** Three float32 bit patterns: a quiet NaN and the two infinities. *)
Definition nan : Z := 2143289344.
Definition inf : Z := 2139095040.
Definition neg_inf : Z := 4286578688.

(** A world whose generator draws only NaN and infinities, and the 784-1-10
    network built in it. *)
Definition non_finite_world : State :=
  mkState [] ∅ (λ n, if Nat.even n then nan else inf) 0.

Definition non_finite_built : State :=
  (fc_model_Network 784 10 [1%Z] non_finite_world).2.

(** The 3-4-2 network with NaN and infinities among its parameters. *)
Definition non_finite_small_model : Network :=
  mkNetwork
    [mkLinear 3 4 (mkTensor [4; 3]%Z (nan :: inf :: repeat 0%Z 10))
       (mkTensor [4]%Z (repeat neg_inf 4))]
    (mkLinear 4 2 (mkTensor [2; 4]%Z (repeat 0%Z 8)) (mkTensor [2]%Z [nan; inf])).

Definition non_finite_small_world : State :=
  mkState [non_finite_small_model] ∅ (λ _, 0%Z) 0.

(** ** The recorded run of the notebook *)

(** [model = fc_model.Network(784, 10, [512, 256, 128])]. *)
Definition after_cell_11 : State := built 784 10 [512; 256; 128]%Z.

(** [torch.save(model.state_dict(), 'checkpoint.pth')]. *)
Definition cell_14 : Result unit * State := save_state_dict 0 after_cell_11.

(** [state_dict = torch.load('checkpoint.pth')]. *)
Definition cell_15 : Result PyVal * State := load_state_dict_file cell_14.2.

Definition loaded_state_dict : PyVal :=
  match cell_15.1 with Ok v => v | Raise _ => VDict [] end.

(** [model.load_state_dict(state_dict)]. *)
Definition cell_16 : Result (list string * list string) * State :=
  load_state_dict 0 loaded_state_dict true cell_15.2.

(** The "Try this" cell; afterwards [model] names the object it built. *)
Definition cell_17 : Result nat * State := try_this loaded_state_dict cell_16.2.

(** The [checkpoint] cell, on that object. *)
Definition cell_18 : Result unit * State := save_checkpoint 1 cell_17.2.

(** [model = load_checkpoint('checkpoint.pth')]. *)
Definition cell_20 : Result nat * State :=
  load_checkpoint "checkpoint.pth" cell_18.2.

Definition py_keys (v : PyVal) : list string :=
  match v with VDict d => dict_keys d | _ => [] end.

(** The [Linear(in_features=.., out_features=..)] lines of a printed model. *)
Definition printed (m : Network) : list (Z * Z) * (Z * Z) :=
  ((λ l, (in_features l, out_features l)) <$> hidden_layers m,
   (in_features (output m), out_features (output m))).

(** ** Notions for the further properties *)

(** [m'] has the architecture of [m]: the same sizes and, key by key, the
    same parameter shapes. *)
Definition same_architecture (m m' : Network) : Prop :=
  descriptor m' = descriptor m ∧
  shapes_of (state_dict m') = shapes_of (state_dict m).

(** A required entry is present in the record with the size it must have. *)
Definition entry_ok (sd : list (string * PyVal)) (e : string * list Z) : Prop :=
  ∃ t, dict_get e.1 sd = Some (VTensor t) ∧ shape t = e.2.

(** The message, if any, that a required entry gives rise to. *)
Definition entry_msg (sd : list (string * PyVal)) (e : string * list Z)
  : option load_msg :=
  match dict_get e.1 sd with
  | Some (VTensor t) =>
      if decide (shape t = e.2) then None
      else Some (SizeMismatch e.1 (shape t) e.2)
  | Some _ => Some (NotTensor e.1)
  | None => None
  end.

(** The required keys a record lacks, and the messages for the entries it
    has, in the order of the descriptor. *)
Definition missing_of (d : Descriptor) (sd : list (string * PyVal))
  : list string :=
  filter (λ key, dict_has key sd = false) (required_keys d).

Definition mismatches_of (d : Descriptor) (sd : list (string * PyVal))
  : list load_msg :=
  omap (entry_msg sd) (expected_shapes d).

(** A world with two 784-2-10 networks whose parameters differ. *)
Definition counting_world : State := mkState [] ∅ (λ n, Z.of_nat n) 0.

Definition two_models : State :=
  (fc_model_Network 784 10 [2%Z]
     (fc_model_Network 784 10 [2%Z] counting_world).2).2.

(** The checkpoint of the 784-2-10 network with ['output.bias'] deleted,
    ['output.weight'] of the wrong size and one more entry, ['extra']. *)
Definition broken_record : list (string * PyVal) :=
  dict_remove "output.bias" (dict_remove "output.weight" record2) ++
  [("output.weight", VTensor (mkTensor [1%Z] [0%Z]));
   ("extra", VTensor (mkTensor [1%Z] [0%Z]))].

Definition broken_world : State :=
  write_file "checkpoint.pth" (checkpoint_of arch2 broken_record) world0.

(** The checkpoint of the 784-2-10 network, as the save cell writes it. *)
Definition saved2 : State := (save_checkpoint 0 (built 784 10 [2%Z])).2.

(** * Properties *)

Local Arguments Ascii.eqb !a !b /.
Local Arguments String.append !s1 s2 / : simpl nomatch.
Local Arguments final_msgs : simpl never.
Local Arguments unexpected_keys : simpl never.
Local Arguments numel : simpl never.
Local Arguments hidden_prefix : simpl never.
Local Arguments fc_model_Network : simpl never.
Local Arguments load_state_dict : simpl never.
Local Arguments load_result : simpl never.

(** ** Strings *)

Lemma string_of_uint_dotless d : dotless (NilEmpty.string_of_uint d).
Proof. induction d; simpl; auto. Qed.

Lemma str_dotless i : dotless (str i).
Proof. apply string_of_uint_dotless. Qed.

Lemma str_inj i j : str i = str j → i = j.
Proof.
  unfold str. intros H. apply Unsigned.to_uint_inj.
  apply (f_equal NilEmpty.uint_of_string) in H.
  rewrite !NilEmpty.usu in H. congruence.
Qed.

Lemma startswith_dotted s t rest :
  dotless s → dotless t →
  startswith (s +:+ ".") (t +:+ "." +:+ rest) = true → s = t.
Proof.
  revert t. induction s as [|a s IH]; intros [|b t]; simpl; intros Hs Ht H.
  - done.
  - destruct Ht as [Hb _]. rewrite Ascii.eqb_sym in Hb. rewrite Hb in H. done.
  - destruct Hs as [Ha _]. rewrite Ha in H. done.
  - destruct Hs as [_ Hs], Ht as [_ Ht].
    apply andb_prop in H as [Hab H]. apply Ascii.eqb_eq in Hab. subst b.
    f_equal. by apply IH.
Qed.

Lemma startswith_app p rest : startswith p (p +:+ rest) = true.
Proof. induction p; simpl; [done|]. by rewrite Ascii.eqb_refl. Qed.

Lemma string_drop_app p rest :
  string_drop (String.length p) (p +:+ rest) = rest.
Proof. induction p; simpl; done. Qed.

Lemma split_head_dotted s rest :
  dotless s → split_head (s +:+ "." +:+ rest) = s.
Proof.
  induction s as [|a s IH]; simpl; [done|]. intros [Ha Hs]. rewrite Ha.
  f_equal. by apply IH.
Qed.

Lemma append_inv_head p x y : p +:+ x = p +:+ y → x = y.
Proof. induction p; simpl; [done|]. intros [= H]. auto. Qed.

Lemma append_assoc' a b c : (a +:+ b) +:+ c = a +:+ (b +:+ c).
Proof. induction a as [|ch a IH]; simpl; [done|]. by rewrite IH. Qed.

Lemma dotted_inj s t x y :
  dotless s → dotless t → s +:+ "." +:+ x = t +:+ "." +:+ y → s = t ∧ x = y.
Proof.
  intros Hs Ht H.
  assert (s = t) as ->.
  { apply (startswith_dotted s t y Hs Ht). rewrite <- H.
    rewrite <- append_assoc'. apply startswith_app. }
  split; [done|]. apply append_inv_head in H. simpl in H. congruence.
Qed.

Lemma hidden_key_inj i j x y :
  hidden_prefix i +:+ x = hidden_prefix j +:+ y → i = j ∧ x = y.
Proof.
  unfold hidden_prefix. rewrite !append_assoc'. intros H.
  apply append_inv_head in H.
  apply dotted_inj in H as [Hs Hx]; [|apply str_dotless..].
  split; [by apply str_inj|done].
Qed.

(** ** The constructor *)

Ltac monad_unfold :=
  unfold mbind, M_bind, mret, M_ret, raise in *.

Lemma nn_Linear_spec i o st :
  ∃ l n, nn_Linear i o st =
           (Ok l, mkState (models st) (files st) (rng st) (drawn st + n)) ∧
         fresh_linear i o l.
Proof.
  unfold nn_Linear, fresh_tensor. monad_unfold. simpl.
  eexists _, (numel [o; i] + numel [o]). split.
  - by rewrite Nat.add_assoc.
  - done.
Qed.

Lemma hidden_stack_spec sizes : ∀ prev st,
  ∃ ls n, hidden_stack prev sizes st =
            (Ok ls, mkState (models st) (files st) (rng st) (drawn st + n)) ∧
          fresh_layers prev sizes ls.
Proof.
  induction sizes as [|h sizes IH]; intros prev st; simpl.
  - exists [], 0. rewrite Nat.add_0_r. by destruct st.
  - destruct (nn_Linear_spec prev h st) as (l & n1 & Hl & Hfl).
    destruct (IH h (mkState (models st) (files st) (rng st) (drawn st + n1)))
      as (ls & n2 & Hls & Hfresh).
    exists (l :: ls), (n1 + n2). monad_unfold. rewrite Hl, Hls. simpl.
    by rewrite Nat.add_assoc.
Qed.

Lemma fc_model_Network_spec i o h sizes st :
  ∃ ls out n,
    fc_model_Network i o (h :: sizes) st =
      (Ok (length (models st)), after_alloc st (mkNetwork ls out) n) ∧
    fresh_layers i (h :: sizes) ls ∧
    fresh_linear (List.last (h :: sizes) i) o out.
Proof.
  unfold fc_model_Network.
  destruct (hidden_stack_spec (h :: sizes) i st) as (ls & n1 & Hls & Hfresh).
  destruct (nn_Linear_spec (List.last (h :: sizes) i) o
              (mkState (models st) (files st) (rng st) (drawn st + n1)))
    as (out & n2 & Hout & Hfo).
  exists ls, out, (n1 + n2). monad_unfold. rewrite Hls, Hout.
  unfold alloc, after_alloc. simpl. by rewrite Nat.add_assoc.
Qed.

(** ** load_state_dict on the object that was just allocated *)

Lemma load_state_dict_new st m0 n sd :
  ∃ ks,
  load_state_dict (length (models st)) (VDict sd) true (after_alloc st m0 n) =
    (match (load_result sd (hidden_layers m0) (output m0)).2 with
     | [] => Ok ks
     | msgs => Raise (RuntimeError msgs)
     end, after_alloc st (load_result sd (hidden_layers m0) (output m0)).1 n).
Proof.
  unfold load_state_dict, load_result, deref, store. monad_unfold.
  unfold after_alloc at 1 2. simpl.
  rewrite lookup_app_r, Nat.sub_diag by done. simpl.
  destruct (load_hidden sd 0 (hidden_layers m0)) as [[hl mk1] em1].
  destruct (load_linear sd "output." (output m0)) as [[out mk2] em2]. simpl.
  replace (<[length (models st):=mkNetwork hl out]> (models st ++ [m0]))
    with (models st ++ [mkNetwork hl out]).
  2:{ rewrite insert_app_r_alt, Nat.sub_diag by done. done. }
  match goal with
  | |- context [final_msgs ?a ?b ?c ?d] => destruct (final_msgs a b c d)
  end; [eexists (_, _) | exists ([], [])]; reflexivity.
Qed.

(** ** The main path of load_checkpoint *)

Lemma load_checkpoint_main st path d sd :
  files st !! path = Some (checkpoint_of d sd) →
  hidden_layer_sizes d ≠ [] →
  ∃ ls0 out0 n,
    fresh_layers (input_size d) (hidden_layer_sizes d) ls0 ∧
    fresh_linear (List.last (hidden_layer_sizes d) (input_size d))
      (output_size d) out0 ∧
    load_checkpoint path st =
      (match (load_result sd ls0 out0).2 with
       | [] => Ok (length (models st))
       | msgs => Raise (RuntimeError msgs)
       end, after_alloc st (load_result sd ls0 out0).1 n).
Proof.
  intros Hfile Hne. destruct d as [i o sizes]. simpl in *.
  destruct sizes as [|h sizes]; [done|].
  destruct (fc_model_Network_spec i o h sizes st)
    as (ls0 & out0 & n & Hnew & Hls & Hout).
  exists ls0, out0, n. split; [done|]. split; [done|].
  destruct (load_state_dict_new st (mkNetwork ls0 out0) n sd) as [ks Hload].
  unfold load_checkpoint, torch_load, checkpoint_of, Network_call in *.
  monad_unfold. rewrite Hfile. simpl. rewrite Hnew. simpl.
  rewrite Hload. simpl.
  by destruct (load_result sd ls0 out0).2.
Qed.

(** ** Looking up the keys of a saved state dict *)

Lemma dict_get_tensor_vals key sd :
  dict_get key (tensor_vals sd) = VTensor <$> dict_get key sd.
Proof.
  induction sd as [|[k t] sd IH]; simpl; [done|].
  by destruct (String.eqb key k).
Qed.

Lemma hidden_key_eqb_ne i j x y :
  i ≠ j → String.eqb (hidden_prefix i +:+ x) (hidden_prefix j +:+ y) = false.
Proof.
  intros Hne. apply String.eqb_neq. intros H.
  by apply hidden_key_inj in H as [? _].
Qed.

Lemma hidden_prefix_unfold i :
  hidden_prefix i = "hidden_layers." +:+ (str i +:+ ".").
Proof. reflexivity. Qed.

Lemma hidden_key_unfold i name :
  hidden_prefix i +:+ name = "hidden_layers." +:+ (str i +:+ "." +:+ name).
Proof. unfold hidden_prefix. by rewrite !append_assoc'. Qed.

Lemma hidden_prefix_0 : hidden_prefix 0 = "hidden_layers.0.".
Proof. reflexivity. Qed.

Lemma hidden_prefix_1 : hidden_prefix 1 = "hidden_layers.1.".
Proof. reflexivity. Qed.

Lemma hidden_prefix_2 : hidden_prefix 2 = "hidden_layers.2.".
Proof. reflexivity. Qed.

Local Opaque hidden_prefix.

Lemma dict_get_hidden_weight ls : ∀ k j l rest,
  ls !! j = Some l →
  dict_get (hidden_prefix (k + j) +:+ "weight") (hidden_state k ls ++ rest)
    = Some (weight l).
Proof.
  induction ls as [|l0 ls IH]; intros k j l rest Hj; [done|].
  destruct j as [|j]; simpl in *.
  - rewrite Nat.add_0_r, String.eqb_refl. congruence.
  - rewrite !hidden_key_eqb_ne by lia.
    replace (k + S j) with (S k + j) by lia. by apply IH.
Qed.

Lemma dict_get_hidden_bias ls : ∀ k j l rest,
  ls !! j = Some l →
  dict_get (hidden_prefix (k + j) +:+ "bias") (hidden_state k ls ++ rest)
    = Some (bias l).
Proof.
  induction ls as [|l0 ls IH]; intros k j l rest Hj; [done|].
  destruct j as [|j]; simpl in *.
  - rewrite Nat.add_0_r, String.eqb_refl.
    assert (String.eqb (hidden_prefix k +:+ "bias")
              (hidden_prefix k +:+ "weight") = false) as ->.
    { apply String.eqb_neq. intros H. by apply append_inv_head in H. }
    congruence.
  - rewrite !hidden_key_eqb_ne by lia.
    replace (k + S j) with (S k + j) by lia. by apply IH.
Qed.


Lemma dict_get_output ls name : ∀ k rest,
  dict_get ("output." +:+ name) (hidden_state k ls ++ rest)
    = dict_get ("output." +:+ name) rest.
Proof.
  induction ls as [|l0 ls IH]; intros k rest; [done|]. simpl.
  rewrite !hidden_key_unfold. simpl. apply IH.
Qed.

(** ** Copying a saved state dict into fresh layers *)

Lemma copy_same_shape p t : shape t = shape p → copy_ p t = t.
Proof. destruct t. unfold copy_. simpl. by intros <-. Qed.

Lemma load_param_hit sd key p t :
  dict_get key sd = Some (VTensor t) → shape t = shape p →
  load_param sd key p = (t, [], []).
Proof.
  intros Hget Hsh. unfold load_param. rewrite Hget.
  rewrite decide_True by done. by rewrite copy_same_shape.
Qed.

Lemma load_hidden_saved ls : ∀ k prev sizes ls0 sd,
  fresh_layers prev sizes ls0 →
  shapes_of (hidden_state k ls) = hidden_shapes k prev sizes →
  (∀ j l, ls !! j = Some l →
     dict_get (hidden_prefix (k + j) +:+ "weight") sd = Some (VTensor (weight l)) ∧
     dict_get (hidden_prefix (k + j) +:+ "bias") sd = Some (VTensor (bias l))) →
  ∃ ls', load_hidden sd k ls0 = (ls', [], []) ∧
         hidden_state k ls' = hidden_state k ls ∧
         out_features <$> ls' = sizes ∧
         (∀ l', head ls' = Some l' → in_features l' = prev).
Proof.
  induction ls as [|l ls IH]; intros k prev sizes ls0 sd Hfresh Hsh Hget.
  - destruct sizes as [|h sizes]; [|done]. destruct ls0; [|done].
    by exists [].
  - destruct sizes as [|h sizes]; [done|]. destruct ls0 as [|l0 ls0]; [done|].
    simpl in Hfresh. destruct Hfresh as [(Hin & Hout & Hw & Hb) Hfresh].
    simpl in Hsh. injection Hsh as Hshw Hshb Hsh.
    destruct (Hget 0 l eq_refl) as [Hgw Hgb]. rewrite Nat.add_0_r in Hgw, Hgb.
    destruct (IH (S k) h sizes ls0 sd Hfresh Hsh) as (ls' & Hl & Hst & Ho & _).
    { intros j l' Hj. replace (S k + j) with (k + S j) by lia.
      by apply Hget. }
    exists (mkLinear (in_features l0) (out_features l0) (weight l) (bias l) :: ls').
    simpl. unfold load_linear.
    rewrite (load_param_hit _ _ _ _ Hgw) by congruence.
    rewrite (load_param_hit _ _ _ _ Hgb) by congruence.
    rewrite Hl. split_and!; simpl.
    + done.
    + by rewrite Hst.
    + rewrite <- Ho, Hout. done.
    + intros l' [= <-]. done.
Qed.

(** ** A saved state dict has no unexpected key *)



Lemma dotted_not_dotless s x t : dotless t → s +:+ "." +:+ x ≠ t.
Proof.
  revert t. induction s as [|a s IH]; intros [|b t]; simpl; try done.
  - intros [Hb _] [= <- _]. done.
  - intros [_ Ht] [= _ H]. by apply (IH t).
Qed.

Lemma hidden_state_keys ls : ∀ k,
  Forall (model_key (k + length ls)) (dict_keys (hidden_state k ls)).
Proof.
  induction ls as [|l ls IH]; intros k; simpl; [constructor|].
  apply Forall_cons. split; [|apply Forall_cons; split].
  - left. exists k, "weight". split_and!; [lia|set_solver|done].
  - left. exists k, "bias". split_and!; [lia|set_solver|done].
  - replace (k + S (length ls)) with (S k + length ls) by lia. apply IH.
Qed.

Lemma state_dict_keys m :
  Forall (model_key (length (hidden_layers m)))
    (dict_keys (tensor_vals (state_dict m))).
Proof.
  unfold dict_keys, tensor_vals, state_dict.
  rewrite <- list_fmap_compose.
  replace (fst ∘ prod_map id VTensor) with (@fst string Tensor) by done.
  rewrite fmap_app. apply Forall_app. split.
  - apply (hidden_state_keys (hidden_layers m) 0).
  - simpl. apply Forall_cons. split; [|apply Forall_cons; split; [|constructor]];
      right; [exists "weight" | exists "bias"]; (split; [set_solver|done]).
Qed.

Lemma unexpected_at_nil keys prefix known :
  Forall (λ key, startswith prefix key = true →
                 key ≠ prefix +:+ "_extra_state" ∧
                 input_name prefix key ∈ known) keys →
  unexpected_at keys prefix known = [].
Proof.
  intros Hall. unfold unexpected_at.
  rewrite decide_False.
  2:{ intros Hin. rewrite Forall_forall in Hall.
      destruct (Hall _ Hin); [apply startswith_app|done]. }
  simpl. induction Hall as [|key keys Hkey Hall IH]; [done|].
  rewrite filter_cons. rewrite decide_False; [done|].
  intros (Hs & Hne & Hnot). destruct (Hkey Hs). done.
Qed.

Lemma input_name_app prefix rest :
  input_name prefix (prefix +:+ rest) = split_head rest.
Proof. unfold input_name. by rewrite string_drop_app. Qed.

Lemma linear_param_head name :
  name ∈ linear_params → split_head name = name ∧ name ≠ "_extra_state".
Proof.
  unfold linear_params. intros H.
  apply elem_of_cons in H as [->|H]; [done|].
  apply elem_of_cons in H as [->|H]; [done|].
  by apply elem_of_nil in H.
Qed.

Lemma unexpected_root n keys :
  Forall (model_key n) keys →
  unexpected_at keys "" ["hidden_layers"; "output"; "dropout"] = [].
Proof.
  intros Hall. apply unexpected_at_nil.
  eapply Forall_impl; [exact Hall|]. clear. intros key Hkey _.
  destruct Hkey as [(i & name & _ & _ & ->)|(name & _ & ->)].
  - rewrite hidden_key_unfold. split; [done|].
    unfold input_name. simpl. set_solver.
  - split; [done|]. unfold input_name. simpl. set_solver.
Qed.

Lemma unexpected_module_list n keys :
  Forall (model_key n) keys →
  unexpected_at keys "hidden_layers." (str <$> seq 0 n) = [].
Proof.
  intros Hall. apply unexpected_at_nil.
  eapply Forall_impl; [exact Hall|]. clear. intros key Hkey Hs.
  destruct Hkey as [(i & name & Hi & _ & ->)|(name & _ & ->)]; [|done].
  rewrite hidden_key_unfold. split.
  - intros H. apply append_inv_head in H.
    by apply dotted_not_dotless in H.
  - rewrite input_name_app, split_head_dotted by apply str_dotless.
    apply list_elem_of_fmap. exists i. split; [done|].
    apply elem_of_seq. lia.
Qed.

Lemma unexpected_hidden n keys j :
  Forall (model_key n) keys →
  unexpected_at keys (hidden_prefix j) linear_params = [].
Proof.
  intros Hall. apply unexpected_at_nil.
  eapply Forall_impl; [exact Hall|]. clear. intros key Hkey Hs.
  destruct Hkey as [(i & name & Hi & Hname & ->)|(name & _ & ->)].
  - assert (i = j) as ->.
    { rewrite hidden_key_unfold, hidden_prefix_unfold in Hs. simpl in Hs.
      apply startswith_dotted in Hs; [|apply str_dotless..].
      symmetry. by apply str_inj. }
    destruct (linear_param_head _ Hname) as [Hhead Hne].
    split.
    + intros H. by apply append_inv_head in H.
    + by rewrite input_name_app, Hhead.
  - rewrite hidden_prefix_unfold in Hs. done.
Qed.

Lemma unexpected_output n keys :
  Forall (model_key n) keys →
  unexpected_at keys "output." linear_params = [].
Proof.
  intros Hall. apply unexpected_at_nil.
  eapply Forall_impl; [exact Hall|]. clear. intros key Hkey Hs.
  destruct Hkey as [(i & name & Hi & Hname & ->)|(name & Hname & ->)].
  - rewrite hidden_key_unfold in Hs. done.
  - destruct (linear_param_head _ Hname) as [Hhead Hne].
    split.
    + intros H. by apply (append_inv_head "output.") in H.
    + by rewrite input_name_app, Hhead.
Qed.

Lemma unexpected_dropout n keys :
  Forall (model_key n) keys → unexpected_at keys "dropout." [] = [].
Proof.
  intros Hall. apply unexpected_at_nil.
  eapply Forall_impl; [exact Hall|]. clear. intros key Hkey Hs.
  destruct Hkey as [(i & name & Hi & Hname & ->)|(name & Hname & ->)].
  - rewrite hidden_key_unfold in Hs. done.
  - done.
Qed.

Lemma unexpected_keys_nil n keys :
  Forall (model_key n) keys → unexpected_keys n keys = [].
Proof.
  intros Hall. unfold unexpected_keys.
  rewrite (unexpected_root n), (unexpected_module_list n),
    (unexpected_output n), (unexpected_dropout n) by done.
  simpl. rewrite app_nil_r.
  induction (seq 0 n) as [|j js IH]; [done|].
  rewrite fmap_cons. cbn [concat]. rewrite IH.
  by rewrite (unexpected_hidden n).
Qed.

(** ** Loading what was saved *)

Lemma fresh_layers_length sizes : ∀ prev ls,
  fresh_layers prev sizes ls → length ls = length sizes.
Proof.
  induction sizes as [|h sizes IH]; intros prev [|l ls]; simpl; try done.
  intros [_ H]. f_equal. by apply (IH h).
Qed.

Lemma load_result_saved m i o ls0 out0 :
  shapes_match (mkDescriptor i o (out_features <$> hidden_layers m))
    (state_dict m) →
  fresh_layers i (out_features <$> hidden_layers m) ls0 →
  fresh_linear (List.last (out_features <$> hidden_layers m) i) o out0 →
  ∃ m', load_result (tensor_vals (state_dict m)) ls0 out0 = (m', []) ∧
        state_dict m' = state_dict m ∧
        descriptor m' = mkDescriptor i o (out_features <$> hidden_layers m).
Proof.
  intros Hsh Hls (Hoi & Hoo & How & Hob).
  unfold shapes_match, expected_shapes, state_dict, shapes_of in Hsh.
  simpl in Hsh. rewrite fmap_app in Hsh.
  apply app_inj_2 in Hsh as [Hhid Hout]; [|done].
  simpl in Hout. injection Hout as Hsw Hsb.
  destruct (load_hidden_saved (hidden_layers m) 0 i
              (out_features <$> hidden_layers m) ls0
              (tensor_vals (state_dict m)) Hls Hhid)
    as (ls' & Hload & Hstate & Hsizes & Hhead).
  { intros j l Hj. rewrite !dict_get_tensor_vals. unfold state_dict.
    rewrite (dict_get_hidden_weight _ 0 j l), (dict_get_hidden_bias _ 0 j l);
      done. }
  exists (mkNetwork ls'
            (mkLinear (in_features out0) (out_features out0)
               (weight (output m)) (bias (output m)))).
  split_and!.
  - unfold load_result. rewrite Hload. unfold load_linear.
    rewrite (load_param_hit _ _ _ (weight (output m))); [|
      rewrite dict_get_tensor_vals; unfold state_dict;
      by rewrite (dict_get_output _ "weight") | congruence].
    rewrite (load_param_hit _ _ _ (bias (output m))); [|
      rewrite dict_get_tensor_vals; unfold state_dict;
      by rewrite (dict_get_output _ "bias") | congruence].
    rewrite unexpected_keys_nil; [done|].
    rewrite (fresh_layers_length _ _ _ Hls), length_fmap.
    apply state_dict_keys.
  - unfold state_dict. simpl. by rewrite Hstate.
  - unfold descriptor. simpl. rewrite Hsizes, Hoo. f_equal.
    destruct ls' as [|l' ls'].
    + destruct (hidden_layers m); [|done]. done.
    + by apply Hhead.
Qed.

Lemma save_checkpoint_spec st model m :
  models st !! model = Some m →
  save_checkpoint model st =
    (Ok tt, write_file "checkpoint.pth" (checkpoint m) st).
Proof.
  intros Hm. unfold save_checkpoint, deref, torch_save. monad_unfold.
  by rewrite Hm.
Qed.

Lemma lookup_after_alloc st m n :
  models (after_alloc st m n) !! length (models st) = Some m.
Proof. unfold after_alloc. simpl. by apply list_lookup_middle. Qed.

Lemma load_after_save st model m :
  models st !! model = Some m →
  shapes_match (descriptor m) (state_dict m) →
  hidden_layers m ≠ [] →
  input_size (descriptor m) = 784%Z →
  output_size (descriptor m) = 10%Z →
  ∃ m' n,
    load_checkpoint "checkpoint.pth" (save_checkpoint model st).2 =
      (Ok (length (models st)),
       after_alloc (write_file "checkpoint.pth" (checkpoint m) st) m' n) ∧
    state_dict m' = state_dict m ∧ descriptor m' = descriptor m.
Proof.
  intros Hm Hsh Hne Hin Hout.
  rewrite (save_checkpoint_spec _ _ _ Hm). simpl.
  assert (descriptor m = mkDescriptor 784 10 (out_features <$> hidden_layers m))
    as Hd.
  { destruct (descriptor m) as [i o sizes] eqn:E. simpl in *. subst.
    f_equal. unfold descriptor in E. by injection E. }
  rewrite Hd in Hsh.
  destruct (load_checkpoint_main
              (write_file "checkpoint.pth" (checkpoint m) st) "checkpoint.pth"
              (mkDescriptor 784 10 (out_features <$> hidden_layers m))
              (tensor_vals (state_dict m)))
    as (ls0 & out0 & n & Hls & Ho & Hload).
  { unfold write_file. simpl. by rewrite lookup_insert_eq. }
  { simpl. by destruct (hidden_layers m). }
  destruct (load_result_saved m 784 10 ls0 out0 Hsh Hls Ho)
    as (m' & Hres & Hstate & Hdesc).
  exists m', n. rewrite Hload, Hres, Hd. done.
Qed.

(** ** Round trip *)

(** C1, amended: for every model that holds 784 inputs and 10 outputs, has a
    valid architecture descriptor and parameter arrays of the shapes the
    descriptor implies, loading the checkpoint written by the save cell yields
    a model with the same [input_size], [output_size] and hidden layer sizes
    and with every weight and bias array equal to the original's. *)
Theorem round_trip_784_10 st model m :
  models st !! model = Some m →
  well_shaped m →
  input_size (descriptor m) = 784%Z →
  output_size (descriptor m) = 10%Z →
  round_trip st model m.
Proof.
  intros Hm [(_ & _ & Hne & _) Hsh] Hin Hout.
  assert (hidden_layers m ≠ []) as Hne'.
  { intros E. apply Hne. unfold descriptor. simpl. by rewrite E. }
  destruct (load_after_save st model m Hm Hsh Hne' Hin Hout)
    as (m' & n & Hload & Hst & Hd).
  eexists (length (models st)), _, m'. split; [exact Hload|].
  split; [apply (lookup_after_alloc (write_file _ _ st))|].
  by rewrite Hd.
Qed.

Ltac solve_valid_descriptor :=
  split_and!;
  [ vm_compute; reflexivity
  | vm_compute; reflexivity
  | vm_compute; discriminate
  | vm_compute; repeat constructor ].

Lemma round_trip_784_10_witness :
  round_trip (built 784 10 [2]%Z) 0 (model_at (built 784 10 [2]%Z) 0).
Proof.
  apply round_trip_784_10.
  - vm_compute. reflexivity.
  - split; [solve_valid_descriptor | vm_compute; reflexivity].
  - vm_compute. reflexivity.
  - vm_compute. reflexivity.
Defined.

(** C1 as stated fails: the save cell writes 784 and 10 whatever the model
    holds, so a valid 3-4-2 network does not load back. *)
Lemma round_trip_fails_small :
  models small_world !! 0 = Some small_model ∧
  well_shaped small_model ∧
  ¬ round_trip small_world 0 small_model.
Proof.
  split; [reflexivity|]. split.
  - split; [solve_valid_descriptor | vm_compute; reflexivity].
  - intros (a' & st' & m' & Hload & _).
    apply (f_equal fst) in Hload. vm_compute in Hload. discriminate.
Qed.

(** ** Every path through load_checkpoint *)

Lemma load_checkpoint_early path st e :
  checkpoint_arch path (files st !! path) = Raise e →
  load_checkpoint path st = (Raise e, st).
Proof.
  unfold checkpoint_arch, load_checkpoint, torch_load, getitem, Network_call.
  monad_unfold.
  destruct (files st !! path) as [[| | |d]|]; simpl; try congruence.
  destruct (dict_get "input_size" d) as [v1|]; simpl; [|congruence].
  destruct (dict_get "output_size" d) as [v2|]; simpl; [|congruence].
  destruct (dict_get "hidden_layers" d) as [v3|]; simpl; [|congruence].
  destruct v1, v2, v3 as [| [|h sizes] | |]; simpl; congruence.
Qed.

Lemma load_checkpoint_late path st i o sizes :
  checkpoint_arch path (files st !! path) = Ok (i, o, sizes) →
  ∃ d ls0 out0 n,
    files st !! path = Some (VDict d) ∧
    fresh_layers i sizes ls0 ∧
    fresh_linear (List.last sizes i) o out0 ∧
    length ls0 = length sizes ∧
    load_checkpoint path st =
      match dict_get "state_dict" d with
      | None =>
          (Raise (KeyError "state_dict"), after_alloc st (mkNetwork ls0 out0) n)
      | Some (VDict sd) =>
          (match (load_result sd ls0 out0).2 with
           | [] => Ok (length (models st))
           | msgs => Raise (RuntimeError msgs)
           end, after_alloc st (load_result sd ls0 out0).1 n)
      | Some _ =>
          (Raise AttributeError, after_alloc st (mkNetwork ls0 out0) n)
      end.
Proof.
  unfold checkpoint_arch, load_checkpoint, torch_load, getitem, Network_call.
  monad_unfold.
  destruct (files st !! path) as [[| | |d]|]; simpl; try congruence.
  destruct (dict_get "input_size" d) as [v1|]; simpl; [|congruence].
  destruct (dict_get "output_size" d) as [v2|]; simpl; [|congruence].
  destruct (dict_get "hidden_layers" d) as [v3|]; simpl; [|congruence].
  destruct v1, v2, v3 as [| [|h hs] | |]; simpl; try congruence.
  intros [= -> -> <-].
  destruct (fc_model_Network_spec i o h hs st)
    as (ls0 & out0 & n & Hnew & Hls & Hout).
  exists d, ls0, out0, n. split_and!; try done.
  { by apply (fresh_layers_length _ i). }
  rewrite Hnew.
  destruct (dict_get "state_dict" d) as [[| | |sd]|]; simpl;
    try (unfold load_state_dict; reflexivity).
  destruct (load_state_dict_new st (mkNetwork ls0 out0) n sd) as [ks Hload].
  rewrite Hload. simpl.
  by destruct (load_result sd ls0 out0).2.
Qed.

(** ** The drawn initial values never show *)

Lemma load_param_agree sd key p1 p2 :
  shape p1 = shape p2 → agree (load_param sd key p1) (load_param sd key p2).
Proof.
  intros Hsh. unfold load_param, agree.
  destruct (dict_get key sd) as [[| |t|]|]; simpl; try done.
  rewrite <- Hsh.
  destruct (decide (shape t = shape p1)); simpl; [|done].
  split_and!; try done. intros _ _. unfold copy_. by rewrite Hsh.
Qed.

Lemma app_nil_inv {A} (l1 l2 : list A) : l1 ++ l2 = [] → l1 = [] ∧ l2 = [].
Proof. destruct l1; [done|discriminate]. Qed.

Lemma load_linear_agree sd prefix l1 l2 :
  in_features l1 = in_features l2 → out_features l1 = out_features l2 →
  shape (weight l1) = shape (weight l2) → shape (bias l1) = shape (bias l2) →
  agree (load_linear sd prefix l1) (load_linear sd prefix l2).
Proof.
  intros Hi Ho Hw Hb. unfold load_linear.
  pose proof (load_param_agree sd (prefix +:+ "weight") _ _ Hw) as Aw.
  pose proof (load_param_agree sd (prefix +:+ "bias") _ _ Hb) as Ab.
  destruct (load_param sd (prefix +:+ "weight") (weight l1)) as [[w1 mw1] ew1].
  destruct (load_param sd (prefix +:+ "weight") (weight l2)) as [[w2 mw2] ew2].
  destruct (load_param sd (prefix +:+ "bias") (bias l1)) as [[b1 mb1] eb1].
  destruct (load_param sd (prefix +:+ "bias") (bias l2)) as [[b2 mb2] eb2].
  unfold agree in *. simpl in *.
  destruct Aw as (-> & -> & Aw), Ab as (-> & -> & Ab).
  split_and!; try done.
  intros [-> ->]%app_nil_inv [-> ->]%app_nil_inv.
  rewrite Hi, Ho, Aw, Ab; done.
Qed.

Lemma load_hidden_agree sd sizes : ∀ k prev ls1 ls2,
  fresh_layers prev sizes ls1 → fresh_layers prev sizes ls2 →
  agree (load_hidden sd k ls1) (load_hidden sd k ls2).
Proof.
  induction sizes as [|h sizes IH]; intros k prev [|l1 ls1] [|l2 ls2];
    simpl; try done.
  intros [(Hi1 & Ho1 & Hw1 & Hb1) H1] [(Hi2 & Ho2 & Hw2 & Hb2) H2].
  pose proof (load_linear_agree sd (hidden_prefix k) l1 l2) as Al.
  pose proof (IH (S k) h ls1 ls2 H1 H2) as Ar.
  destruct (load_linear sd (hidden_prefix k) l1) as [[l1' ml1] el1].
  destruct (load_linear sd (hidden_prefix k) l2) as [[l2' ml2] el2].
  destruct (load_hidden sd (S k) ls1) as [[ls1' mr1] er1].
  destruct (load_hidden sd (S k) ls2) as [[ls2' mr2] er2].
  unfold agree in *. simpl in *.
  destruct Al as (-> & -> & Al); [congruence..|].
  destruct Ar as (-> & -> & Ar).
  split_and!; try done.
  intros [-> ->]%app_nil_inv [-> ->]%app_nil_inv.
  rewrite Al, Ar; done.
Qed.

Lemma final_msgs_nil missing unexpected msgs :
  final_msgs true missing unexpected msgs = [] →
  missing = [] ∧ unexpected = [] ∧ msgs = [].
Proof.
  unfold final_msgs. destruct missing; [|done]. destruct unexpected; [|done].
  done.
Qed.

Lemma load_result_agree sd prev sizes o ls1 out1 ls2 out2 :
  fresh_layers prev sizes ls1 → fresh_layers prev sizes ls2 →
  fresh_linear (List.last sizes prev) o out1 →
  fresh_linear (List.last sizes prev) o out2 →
  (load_result sd ls1 out1).2 = (load_result sd ls2 out2).2 ∧
  ((load_result sd ls1 out1).2 = [] →
   (load_result sd ls1 out1).1 = (load_result sd ls2 out2).1).
Proof.
  intros H1 H2 (Hi1 & Ho1 & Hw1 & Hb1) (Hi2 & Ho2 & Hw2 & Hb2).
  unfold load_result.
  pose proof (load_hidden_agree sd sizes 0 prev ls1 ls2 H1 H2) as Ah.
  pose proof (load_linear_agree sd "output." out1 out2) as Ao.
  rewrite (fresh_layers_length _ _ _ H1), (fresh_layers_length _ _ _ H2).
  destruct (load_hidden sd 0 ls1) as [[hl1 mh1] eh1].
  destruct (load_hidden sd 0 ls2) as [[hl2 mh2] eh2].
  destruct (load_linear sd "output." out1) as [[o1 mo1] eo1].
  destruct (load_linear sd "output." out2) as [[o2 mo2] eo2].
  unfold agree in *. simpl in *.
  destruct Ah as (-> & -> & Ah).
  destruct Ao as (-> & -> & Ao); [congruence..|].
  split; [done|].
  intros (Hm & _ & He)%final_msgs_nil.
  apply app_nil_inv in Hm as [-> ->]. apply app_nil_inv in He as [-> ->].
  rewrite Ah, Ao; done.
Qed.

(** The outcome of [load_checkpoint] is a function of the file it reads:
    neither the live objects, nor the generator, nor any earlier call
    influence it. *)
Lemma load_checkpoint_stateless path st1 st2 :
  files st1 !! path = files st2 !! path →
  same_outcome (load_checkpoint path st1) (load_checkpoint path st2).
Proof.
  intros Hfile. unfold same_outcome.
  destruct (checkpoint_arch path (files st1 !! path)) as [[[i o] sizes]|e] eqn:E.
  - destruct (load_checkpoint_late path st1 i o sizes E)
      as (d1 & ls1 & out1 & n1 & Hf1 & Hls1 & Ho1 & _ & ->).
    rewrite Hfile in E.
    destruct (load_checkpoint_late path st2 i o sizes E)
      as (d2 & ls2 & out2 & n2 & Hf2 & Hls2 & Ho2 & _ & ->).
    assert (d2 = d1) as -> by congruence.
    destruct (dict_get "state_dict" d1) as [[| | |sd]|]; simpl; try done.
    destruct (load_result_agree sd i sizes o ls1 out1 ls2 out2) as [Hmsgs Hm];
      try done.
    rewrite <- Hmsgs.
    destruct (load_result sd ls1 out1).2 eqn:Emsgs; simpl; [|done].
    exists (load_result sd ls1 out1).1. split.
    + by apply list_lookup_middle.
    + rewrite Hm by done. by apply list_lookup_middle.
  - rewrite (load_checkpoint_early path st1 e E).
    rewrite Hfile in E. rewrite (load_checkpoint_early path st2 e E). done.
Qed.

(** [load_checkpoint] only ever adds to the store of live objects. *)
Lemma load_checkpoint_frame path st :
  ∃ extra n,
    (load_checkpoint path st).2 =
      mkState (models st ++ extra) (files st) (rng st) (drawn st + n).
Proof.
  destruct (checkpoint_arch path (files st !! path)) as [[[i o] sizes]|e] eqn:E.
  - destruct (load_checkpoint_late path st i o sizes E)
      as (d & ls0 & out0 & n & _ & _ & _ & _ & ->).
    destruct (dict_get "state_dict" d) as [[| | |sd]|]; simpl;
      eexists [_], n; reflexivity.
  - rewrite (load_checkpoint_early path st e E). exists [], 0. simpl.
    rewrite app_nil_r, Nat.add_0_r. by destruct st.
Qed.

(** ** Failure of load *)

(** C5: whenever [load_checkpoint] raises, and so in particular when
    [load_state_dict] reports a size mismatch or a missing key, the caller
    receives the exception and no model, every model object that existed
    before the call is unchanged, and so is every file; the partly filled new
    object is referenced by nothing the caller holds. *)
Theorem load_failure_is_atomic path st e st' :
  load_checkpoint path st = (Raise e, st') →
  (load_checkpoint path st).1 = Raise e ∧
  files st' = files st ∧
  (∀ a, a < length (models st) → models st' !! a = models st !! a).
Proof.
  intros Hload. split; [by rewrite Hload|].
  destruct (load_checkpoint_frame path st) as (extra & n & Hst).
  rewrite Hload in Hst. simpl in Hst. subst st'. simpl. split; [done|].
  intros a Ha. by apply lookup_app_l.
Qed.

Lemma load_failure_is_atomic_witness :
  let r := load_checkpoint "checkpoint.pth" small_saved in
  r.1 = Raise (RuntimeError
                 [SizeMismatch "hidden_layers.0.weight" [4; 3]%Z [4; 784]%Z;
                  SizeMismatch "output.weight" [2; 4]%Z [10; 4]%Z;
                  SizeMismatch "output.bias" [2]%Z [10]%Z]) ∧
  files r.2 = files small_saved ∧
  (∀ a, a < length (models small_saved) →
        models r.2 !! a = models small_saved !! a).
Proof.
  intros r.
  apply (load_failure_is_atomic "checkpoint.pth" small_saved _ r.2).
  apply injective_projections; [vm_compute; reflexivity | reflexivity].
Defined.

(** ** Save *)

(** C7: the save cell leaves every live model object, the model it saves
    included, exactly as it was, and consumes nothing of the generator; it
    writes the file ['checkpoint.pth'] and no other.  The file holds the
    architecture and the parameter arrays of the model as they were at the
    call: updating the model in place afterwards does not change it. *)
Theorem save_does_not_mutate st model m :
  models st !! model = Some m →
  let st' := (save_checkpoint model st).2 in
  models st' = models st ∧
  rng st' = rng st ∧ drawn st' = drawn st ∧
  (∀ path, path ≠ "checkpoint.pth" → files st' !! path = files st !! path) ∧
  files st' !! "checkpoint.pth" = Some (checkpoint m) ∧
  (∀ m2, files (store model m2 st').2 !! "checkpoint.pth" = Some (checkpoint m)).
Proof.
  intros Hm. rewrite (save_checkpoint_spec _ _ _ Hm). simpl.
  split_and!; try done.
  - intros path Hne. by rewrite lookup_insert_ne.
  - by rewrite lookup_insert_eq.
  - intros m2. by rewrite lookup_insert_eq.
Qed.

Lemma save_does_not_mutate_witness :
  let st' := (save_checkpoint 0 small_world).2 in
  models st' = models small_world ∧
  rng st' = rng small_world ∧ drawn st' = drawn small_world ∧
  (∀ path, path ≠ "checkpoint.pth" →
           files st' !! path = files small_world !! path) ∧
  files st' !! "checkpoint.pth" = Some (checkpoint small_model) ∧
  (∀ m2, files (store 0 m2 st').2 !! "checkpoint.pth" =
         Some (checkpoint small_model)).
Proof. apply (save_does_not_mutate small_world 0 small_model). reflexivity. Defined.

(** C8, amended: for every well shaped model that holds 784 inputs and 10
    outputs, saving the unchanged model twice writes the same checkpoint both
    times, and the load after the first save and the load after the second
    both return a model: two distinct objects that are equal and have the
    architecture and the parameter arrays of the saved model.  For every
    model and every file, the outcome of a load, the exception or the model
    returned, depends on nothing but the contents of the file it reads. *)
Theorem save_twice_load_equal st model m :
  models st !! model = Some m →
  well_shaped m →
  input_size (descriptor m) = 784%Z →
  output_size (descriptor m) = 10%Z →
  let st1 := (save_checkpoint model st).2 in
  let r1 := load_checkpoint "checkpoint.pth" st1 in
  let st2 := (save_checkpoint model r1.2).2 in
  let r2 := load_checkpoint "checkpoint.pth" st2 in
  files st1 !! "checkpoint.pth" = Some (checkpoint m) ∧
  files st2 !! "checkpoint.pth" = Some (checkpoint m) ∧
  models st2 !! model = Some m ∧
  reconstruct_equal_models m r1 r2 ∧
  (∀ a1 a2, r1.1 = Ok a1 → r2.1 = Ok a2 → a1 ≠ a2 ∧ a1 ≠ model ∧ a2 ≠ model) ∧
  (∀ path sa sb, files sa !! path = files sb !! path →
     same_outcome (load_checkpoint path sa) (load_checkpoint path sb)).
Proof.
  intros Hm [(_ & _ & Hne & _) Hsh] Hin Hout st1 r1 st2 r2.
  assert (hidden_layers m ≠ []) as Hne'.
  { intros E. apply Hne. unfold descriptor. simpl. by rewrite E. }
  assert (model < length (models st)) as Hlt by by eapply lookup_lt_Some.
  destruct (load_after_save st model m Hm Hsh Hne' Hin Hout)
    as (m1 & n1 & Hload1 & Hst1 & Hd1).
  change (r1 = (Ok (length (models st)),
                after_alloc (write_file "checkpoint.pth" (checkpoint m) st)
                  m1 n1)) in Hload1.
  assert (files st1 !! "checkpoint.pth" = Some (checkpoint m)) as H1.
  { unfold st1. rewrite (save_checkpoint_spec _ _ _ Hm). simpl.
    by rewrite lookup_insert_eq. }
  assert (models r1.2 !! model = Some m) as Hm1.
  { rewrite Hload1. simpl. by apply lookup_app_l_Some. }
  assert (length (models r1.2) = S (length (models st))) as Hlen.
  { rewrite Hload1. simpl. rewrite length_app. simpl. lia. }
  destruct (load_after_save r1.2 model m Hm1 Hsh Hne' Hin Hout)
    as (m2 & n2 & Hload2 & Hst2 & Hd2).
  change (r2 = (Ok (length (models r1.2)),
                after_alloc (write_file "checkpoint.pth" (checkpoint m) r1.2)
                  m2 n2)) in Hload2.
  assert (st2 = write_file "checkpoint.pth" (checkpoint m) r1.2) as Hw2.
  { unfold st2. by rewrite (save_checkpoint_spec _ _ _ Hm1). }
  assert (files st2 !! "checkpoint.pth" = Some (checkpoint m)) as H2.
  { rewrite Hw2. simpl. by rewrite lookup_insert_eq. }
  assert (same_outcome r1 r2) as Hsame.
  { apply load_checkpoint_stateless. congruence. }
  split_and!; try done.
  - by rewrite Hw2.
  - unfold same_outcome in Hsame. rewrite Hload1, Hload2 in Hsame.
    cbn [fst snd] in Hsame. destruct Hsame as (m' & Ha & Hb).
    assert (m' = m1) as ->.
    { pose proof (lookup_after_alloc
                    (write_file "checkpoint.pth" (checkpoint m) st) m1 n1) as E.
      simpl in E, Ha. congruence. }
    exists (length (models st)), (length (models r1.2)), m1.
    split_and!; [by rewrite Hload1 | by rewrite Hload2 | by rewrite Hload1
                | by rewrite Hload2 | done | done].
  - intros a1 a2. rewrite Hload1 at 1. rewrite Hload2 at 1.
    intros [= <-] [= <-]. lia.
  - intros path sa sb. apply load_checkpoint_stateless.
Qed.

Lemma save_twice_load_equal_witness :
  let st1 := (save_checkpoint 1 two_models).2 in
  let r1 := load_checkpoint "checkpoint.pth" st1 in
  let st2 := (save_checkpoint 1 r1.2).2 in
  let r2 := load_checkpoint "checkpoint.pth" st2 in
  (r1.1 = Ok 2 ∧ r2.1 = Ok 3) ∧
  files st1 !! "checkpoint.pth" = Some (checkpoint (model_at two_models 1)) ∧
  files st2 !! "checkpoint.pth" = Some (checkpoint (model_at two_models 1)) ∧
  models st2 !! 1 = Some (model_at two_models 1) ∧
  reconstruct_equal_models (model_at two_models 1) r1 r2 ∧
  (∀ a1 a2, r1.1 = Ok a1 → r2.1 = Ok a2 → a1 ≠ a2 ∧ a1 ≠ 1 ∧ a2 ≠ 1) ∧
  (∀ path sa sb, files sa !! path = files sb !! path →
     same_outcome (load_checkpoint path sa) (load_checkpoint path sb)).
Proof.
  intros st1 r1 st2 r2.
  split; [split; vm_compute; reflexivity|].
  apply (save_twice_load_equal two_models 1 (model_at two_models 1)).
  - vm_compute. reflexivity.
  - split; [solve_valid_descriptor | vm_compute; reflexivity].
  - vm_compute. reflexivity.
  - vm_compute. reflexivity.
Defined.

(** C8 as stated fails: for the well shaped 3-4-2 network the two saves write
    the same checkpoint, but neither load reconstructs a model: both raise
    the same [RuntimeError], so there are no two equal models. *)
Lemma save_twice_reconstructs_nothing_small :
  models small_world !! 0 = Some small_model ∧
  well_shaped small_model ∧
  let r1 := load_checkpoint "checkpoint.pth" (save_checkpoint 0 small_world).2 in
  let r2 := load_checkpoint "checkpoint.pth" (save_checkpoint 0 r1.2).2 in
  r1.1 = Raise (RuntimeError
                  [SizeMismatch "hidden_layers.0.weight" [4; 3]%Z [4; 784]%Z;
                   SizeMismatch "output.weight" [2; 4]%Z [10; 4]%Z;
                   SizeMismatch "output.bias" [2]%Z [10]%Z]) ∧
  r2.1 = r1.1 ∧
  (¬ ∃ a1 a2, r1.1 = Ok a1 ∧ r2.1 = Ok a2) ∧
  ¬ reconstruct_equal_models small_model r1 r2.
Proof.
  split; [reflexivity|].
  split; [split; [solve_valid_descriptor | vm_compute; reflexivity]|].
  intros r1 r2.
  assert (r1.1 = Raise (RuntimeError
                  [SizeMismatch "hidden_layers.0.weight" [4; 3]%Z [4; 784]%Z;
                   SizeMismatch "output.weight" [2; 4]%Z [10; 4]%Z;
                   SizeMismatch "output.bias" [2]%Z [10]%Z])) as H1
    by (vm_compute; reflexivity).
  split_and!.
  - exact H1.
  - vm_compute. reflexivity.
  - intros (a1 & a2 & E & _). rewrite H1 in E. discriminate E.
  - intros (a1 & a2 & m' & E & _). rewrite H1 in E. discriminate E.
Qed.

(** ** Files without the architecture fields *)

Lemma dict_get_None {V} key (d : list (string * V)) :
  key ∉ dict_keys d → dict_get key d = None.
Proof.
  induction d as [|[k v] d IH]; simpl; [done|]. intros Hnot.
  destruct (String.eqb_spec key k) as [->|Hne].
  - exfalso. apply Hnot. by left.
  - apply IH. intros Hin. apply Hnot. by right.
Qed.

Lemma input_size_not_model_key n : ¬ model_key n "input_size".
Proof.
  intros [(i & name & _ & _ & H)|(name & _ & H)].
  - rewrite hidden_key_unfold in H. done.
  - done.
Qed.

Lemma bare_state_dict_no_input_size m :
  dict_get "input_size" (tensor_vals (state_dict m)) = None.
Proof.
  apply dict_get_None. intros Hin.
  pose proof (state_dict_keys m) as Hall. rewrite Forall_forall in Hall.
  by apply Hall, input_size_not_model_key in Hin.
Qed.

Lemma arch_field_read_first key :
  key ∈ ["input_size"; "output_size"; "hidden_layers"] →
  read_before_construction key.
Proof.
  intros Hkey st path d Hfile Hnone.
  assert (∃ k, checkpoint_arch path (files st !! path) = Raise (KeyError k))
    as [k Harch].
  { rewrite Hfile. unfold checkpoint_arch.
    destruct (dict_get "input_size" d) as [v1|] eqn:E1; [|by eexists].
    destruct (dict_get "output_size" d) as [v2|] eqn:E2; [|by eexists].
    destruct (dict_get "hidden_layers" d) as [v3|] eqn:E3; [|by eexists].
    exfalso.
    repeat (apply elem_of_cons in Hkey as [->|Hkey]; [congruence|]).
    by apply elem_of_nil in Hkey. }
  exists k, st. split; [|done]. by apply load_checkpoint_early.
Qed.

(** C10, amended: [load_checkpoint] looks up ['input_size'], ['output_size']
    and ['hidden_layers'] before it constructs a model (['state_dict'] it
    looks up only afterwards), so for every file written as a bare state dict
    the call ends in [KeyError: 'input_size'], no model object is constructed
    and nothing else changes. *)
Theorem bare_state_dict_is_rejected :
  read_before_construction "input_size" ∧
  read_before_construction "output_size" ∧
  read_before_construction "hidden_layers" ∧
  (∀ st model m,
     models st !! model = Some m →
     let st1 := (save_state_dict model st).2 in
     files st1 !! "checkpoint.pth" = Some (state_dict_val m) ∧
     load_checkpoint "checkpoint.pth" st1 = (Raise (KeyError "input_size"), st1)).
Proof.
  split_and!; try (apply arch_field_read_first; set_solver).
  intros st model m Hm st1.
  assert (files st1 !! "checkpoint.pth" = Some (state_dict_val m)) as Hfile.
  { unfold st1, save_state_dict, deref, torch_save. monad_unfold.
    rewrite Hm. simpl. by rewrite lookup_insert_eq. }
  split; [done|]. apply load_checkpoint_early.
  rewrite Hfile. unfold state_dict_val, checkpoint_arch.
  fold (tensor_vals (state_dict m)).
  by rewrite bare_state_dict_no_input_size.
Qed.

Lemma bare_state_dict_is_rejected_witness :
  let st1 := (save_state_dict 0 small_world).2 in
  files st1 !! "checkpoint.pth" = Some (state_dict_val small_model) ∧
  load_checkpoint "checkpoint.pth" st1 = (Raise (KeyError "input_size"), st1).
Proof.
  apply (proj2 (proj2 (proj2 bare_state_dict_is_rejected))
           small_world 0 small_model).
  reflexivity.
Defined.

(** C10 as stated fails for ['state_dict']: with the three architecture
    fields present and ['state_dict'] absent, the model is constructed before
    the [KeyError]. *)
Lemma state_dict_is_read_after_construction :
  (load_checkpoint "checkpoint.pth" headless_world).1
    = Raise (KeyError "state_dict") ∧
  length (models headless_world) = 0 ∧
  length (models (load_checkpoint "checkpoint.pth" headless_world).2) = 1 ∧
  ¬ read_before_construction "state_dict".
Proof.
  assert (length (models (load_checkpoint "checkpoint.pth" headless_world).2)
          = 1) as Hlen by (vm_compute; reflexivity).
  split_and!; [vm_compute; reflexivity | reflexivity | exact Hlen |].
  intros Hclaim.
  destruct (Hclaim headless_world "checkpoint.pth"
              [("input_size", VInt 784); ("output_size", VInt 10);
               ("hidden_layers", VIntList [1%Z])])
    as (k & st' & Hload & Hmodels); [vm_compute; reflexivity | reflexivity |].
  rewrite Hload in Hlen. simpl in Hlen. rewrite Hmodels in Hlen. done.
Qed.

(** ** Missing and unexpected keys *)

Lemma load_linear_missing sd prefix l name :
  name ∈ linear_params → dict_get (prefix +:+ name) sd = None →
  prefix +:+ name ∈ (load_linear sd prefix l).1.2.
Proof.
  unfold linear_params, load_linear, load_param. intros Hname Hnone.
  apply elem_of_cons in Hname as [->|Hname].
  - rewrite Hnone.
    destruct (dict_get (prefix +:+ "bias") sd) as [[| |t|]|]; simpl;
      try destruct (decide _); simpl; by left.
  - apply elem_of_cons in Hname as [->|Hname]; [|by apply elem_of_nil in Hname].
    rewrite Hnone.
    destruct (dict_get (prefix +:+ "weight") sd) as [[| |t|]|]; simpl;
      try destruct (decide _); simpl; try by left.
    right. by left.
Qed.

Lemma load_hidden_missing sd ls : ∀ k j name,
  j < length ls → name ∈ linear_params →
  dict_get (hidden_prefix (k + j) +:+ name) sd = None →
  hidden_prefix (k + j) +:+ name ∈ (load_hidden sd k ls).1.2.
Proof.
  induction ls as [|l ls IH]; intros k j name Hj Hname Hnone; simpl in *;
    [lia|].
  pose proof (load_linear_missing sd (hidden_prefix k) l name Hname) as Hl.
  pose proof (IH (S k) (pred j) name) as Hr.
  destruct (load_linear sd (hidden_prefix k) l) as [[l' ml] el].
  destruct (load_hidden sd (S k) ls) as [[ls' mr] er]. simpl in *.
  apply elem_of_app. destruct j as [|j].
  - left. rewrite Nat.add_0_r in *. by apply Hl.
  - right. simpl in Hr. replace (k + S j) with (S (k + j)) in * by lia.
    apply Hr; [lia|done..].
Qed.

Lemma load_result_missing sd ls0 out0 key :
  model_key (length ls0) key → dict_get key sd = None →
  ∃ keys rest, (load_result sd ls0 out0).2 = MissingKeys keys :: rest ∧
               key ∈ keys.
Proof.
  intros Hkey Hnone. unfold load_result.
  pose proof (load_hidden_missing sd ls0 0) as Hh.
  pose proof (load_linear_missing sd "output." out0) as Ho.
  destruct (load_hidden sd 0 ls0) as [[hl mk1] em1].
  destruct (load_linear sd "output." out0) as [[out mk2] em2]. simpl in *.
  assert (key ∈ mk1 ++ mk2) as Hin.
  { apply elem_of_app.
    destruct Hkey as [(i & name & Hi & Hname & ->)|(name & Hname & ->)].
    - left. by apply (Hh i name).
    - right. by apply Ho. }
  unfold final_msgs. destruct (mk1 ++ mk2) as [|k ks] eqn:E.
  - by apply elem_of_nil in Hin.
  - simpl. by eexists _, _.
Qed.

Lemma hidden_shapes_keys sizes : ∀ k prev,
  Forall (model_key (k + length sizes)) (hidden_shapes k prev sizes).*1.
Proof.
  induction sizes as [|h sizes IH]; intros k prev; simpl; [constructor|].
  apply Forall_cons. split; [|apply Forall_cons; split].
  - left. exists k, "weight". split_and!; [lia|by left|done].
  - left. exists k, "bias". split_and!; [lia|right; by left|done].
  - replace (k + S (length sizes)) with (S k + length sizes) by lia. apply IH.
Qed.

Lemma required_keys_model_key d key :
  key ∈ required_keys d → model_key (length (hidden_layer_sizes d)) key.
Proof.
  unfold required_keys, expected_shapes. rewrite fmap_app.
  intros [Hin|Hin]%elem_of_app.
  - pose proof (hidden_shapes_keys (hidden_layer_sizes d) 0 (input_size d))
      as Hall.
    rewrite Forall_forall in Hall. by apply Hall.
  - simpl in Hin. right.
    apply elem_of_cons in Hin as [->|Hin]; [exists "weight"; split; [by left|done]|].
    apply elem_of_cons in Hin as [->|Hin];
      [exists "bias"; split; [right; by left|done]|].
    by apply elem_of_nil in Hin.
Qed.

Lemma dict_get_remove {V} key (d : list (string * V)) :
  dict_get key (dict_remove key d) = None.
Proof.
  unfold dict_remove. induction d as [|[k v] d IH]; [done|].
  rewrite filter_cons. simpl. destruct (decide (k ≠ key)) as [Hne|Heq].
  - simpl. destruct (String.eqb_spec key k); [congruence|done].
  - done.
Qed.

Lemma unexpected_root_flagged n keys key :
  key ∈ keys → split_head key ∉ ["hidden_layers"; "output"; "dropout"] →
  key ∈ unexpected_keys n keys.
Proof.
  intros Hin Hhead. unfold unexpected_keys. apply elem_of_app. left.
  unfold unexpected_at. apply elem_of_app. simpl.
  destruct (decide (key = "_extra_state")) as [->|Hne].
  - left. rewrite decide_True by done. by left.
  - right. apply list_elem_of_filter. done.
Qed.

Lemma load_result_unexpected sd ls0 out0 key :
  key ∈ unexpected_keys (length ls0) (dict_keys sd) →
  (load_result sd ls0 out0).2 ≠ [] ∧
  ∃ keys, UnexpectedKeys keys ∈ (load_result sd ls0 out0).2 ∧ key ∈ keys.
Proof.
  intros Hin. unfold load_result.
  destruct (load_hidden sd 0 ls0) as [[hl mk1] em1].
  destruct (load_linear sd "output." out0) as [[out mk2] em2]. simpl.
  unfold final_msgs.
  destruct (unexpected_keys (length ls0) (dict_keys sd)) as [|k ks] eqn:E;
    [by apply elem_of_nil in Hin|].
  split.
  - destruct (mk1 ++ mk2); simpl; done.
  - exists (k :: ks). split; [|done].
    apply elem_of_app. right. by left.
Qed.

(** The main path with its outcome split. *)
Lemma load_checkpoint_outcome st path d sd :
  files st !! path = Some (checkpoint_of d sd) →
  hidden_layer_sizes d ≠ [] →
  ∃ ls0 out0 st',
    length ls0 = length (hidden_layer_sizes d) ∧
    load_checkpoint path st =
      (match (load_result sd ls0 out0).2 with
       | [] => Ok (length (models st))
       | msgs => Raise (RuntimeError msgs)
       end, st').
Proof.
  intros Hfile Hne.
  destruct (load_checkpoint_main st path d sd Hfile Hne)
    as (ls0 & out0 & n & Hls & _ & Hload).
  eexists ls0, out0, _. split; [|exact Hload].
  by apply (fresh_layers_length _ (input_size d)).
Qed.

Ltac by_evaluation := apply (bool_decide_unpack _); vm_compute; exact I.

(** C4, amended: for every required layer key of a valid descriptor,
    deleting that key from the parameter record makes [load_checkpoint] fail;
    the exception is the [RuntimeError] of [load_state_dict], whose message
    lists the key among the missing keys. *)
Theorem missing_key_is_fatal st path d sd key :
  valid_descriptor d →
  key ∈ required_keys d →
  files st !! path = Some (checkpoint_of d (dict_remove key sd)) →
  ∃ e st', load_checkpoint path st = (Raise e, st') ∧
           error_name e = "RuntimeError" ∧ reports_missing key e.
Proof.
  intros (_ & _ & Hne & _) Hkey Hfile.
  destruct (load_checkpoint_outcome st path d _ Hfile Hne)
    as (ls0 & out0 & st' & Hlen & Hload).
  destruct (load_result_missing (dict_remove key sd) ls0 out0 key)
    as (keys & rest & Hmsgs & Hin).
  { rewrite Hlen. by apply required_keys_model_key. }
  { apply dict_get_remove. }
  rewrite Hmsgs in Hload.
  exists (RuntimeError (MissingKeys keys :: rest)), st'.
  split_and!; [done..|]. exists (MissingKeys keys :: rest), keys.
  split_and!; [done|by left|done].
Qed.


Lemma missing_key_is_fatal_witness :
  ∃ e st', load_checkpoint "checkpoint.pth" pruned_world = (Raise e, st') ∧
           error_name e = "RuntimeError" ∧ reports_missing "output.bias" e.
Proof.
  apply (missing_key_is_fatal pruned_world "checkpoint.pth" arch2 record2).
  - solve_valid_descriptor.
  - by_evaluation.
  - vm_compute. reflexivity.
Defined.

(** C4 as stated fails: the exception raised for a deleted key is a
    [RuntimeError], there is no [MissingKeyError]. *)
Lemma missing_key_raises_runtime_error :
  "output.bias" ∈ required_keys arch2 ∧
  files pruned_world !! "checkpoint.pth" =
    Some (checkpoint_of arch2 (dict_remove "output.bias" record2)) ∧
  (load_checkpoint "checkpoint.pth" pruned_world).1 =
    Raise (RuntimeError [MissingKeys ["output.bias"]]) ∧
  ¬ (∃ e st', load_checkpoint "checkpoint.pth" pruned_world = (Raise e, st') ∧
              error_name e = "MissingKeyError").
Proof.
  assert ((load_checkpoint "checkpoint.pth" pruned_world).1 =
          Raise (RuntimeError [MissingKeys ["output.bias"]])) as Hrun
    by (vm_compute; reflexivity).
  split_and!; [by_evaluation | vm_compute; reflexivity | exact Hrun |].
  intros (e & st' & Hload & Hname). rewrite Hload in Hrun. simpl in Hrun.
  injection Hrun as ->. discriminate Hname.
Qed.

(** C3, amended: [load_checkpoint] offers no strictness option; it always
    runs [load_state_dict] with its default [strict=True].  Whatever strictness
    the caller has in mind, a missing required key is fatal, and so is every
    key that [load_state_dict] reports as unexpected, among them every key
    whose first dotted component is none of [hidden_layers], [output],
    [dropout]; no extra key is downgraded to a warning. *)
Theorem load_is_always_strict strict st path d sd :
  valid_descriptor d →
  files st !! path = Some (checkpoint_of d sd) →
  (∀ key, key ∈ required_keys d → dict_get key sd = None →
     ∃ e st', load strict path st = (Raise e, st') ∧ reports_missing key e) ∧
  (∀ key, key ∈ unexpected_keys (length (hidden_layer_sizes d)) (dict_keys sd) →
     ∃ e st', load strict path st = (Raise e, st') ∧ reports_unexpected key e) ∧
  (∀ key, key ∈ dict_keys sd →
     split_head key ∉ ["hidden_layers"; "output"; "dropout"] →
     ∃ e st', load strict path st = (Raise e, st') ∧ reports_unexpected key e).
Proof.
  intros (_ & _ & Hne & _) Hfile. unfold load.
  destruct (load_checkpoint_outcome st path d _ Hfile Hne)
    as (ls0 & out0 & st' & Hlen & Hload).
  assert (∀ key,
    key ∈ unexpected_keys (length (hidden_layer_sizes d)) (dict_keys sd) →
    ∃ e st', load_checkpoint path st = (Raise e, st') ∧
             reports_unexpected key e) as Hunexpected.
  { intros key Hin. rewrite <- Hlen in Hin.
    destruct (load_result_unexpected sd ls0 out0 key Hin)
      as (Hnon & keys & Hmsg & Hkey).
    destruct (load_result sd ls0 out0).2 as [|msg msgs] eqn:E; [done|].
    exists (RuntimeError (msg :: msgs)), st'. split; [done|].
    by exists (msg :: msgs), keys. }
  split_and!.
  - intros key Hkey Hnone.
    destruct (load_result_missing sd ls0 out0 key)
      as (keys & rest & Hmsgs & Hin); [|done|].
    { rewrite Hlen. by apply required_keys_model_key. }
    rewrite Hmsgs in Hload.
    exists (RuntimeError (MissingKeys keys :: rest)), st'. split; [done|].
    exists (MissingKeys keys :: rest), keys. split_and!; [done|by left|done].
  - exact Hunexpected.
  - intros key Hin Hhead. apply Hunexpected.
    by apply unexpected_root_flagged.
Qed.

Lemma load_is_always_strict_witness :
  ∃ e st', load false "checkpoint.pth" extra_world = (Raise e, st') ∧
           reports_unexpected "extra" e.
Proof.
  pose proof (load_is_always_strict false extra_world "checkpoint.pth" arch2
                (record2 ++ [("extra", VTensor (mkTensor [1%Z] [0%Z]))]))
    as Hstrict.
  destruct Hstrict as (_ & _ & Hextra).
  - solve_valid_descriptor.
  - vm_compute. reflexivity.
  - apply (Hextra "extra"); by_evaluation.
Defined.

(** C3 as stated fails: a record that has every required key and one extra
    key does not load, with or without a wish for leniency. *)
Lemma extra_key_is_fatal_without_option :
  Forall (λ key, dict_has key record2 = true) (required_keys arch2) ∧
  ("extra" ∉ required_keys arch2) ∧
  (load false "checkpoint.pth" extra_world).1 =
    Raise (RuntimeError [UnexpectedKeys ["extra"]]) ∧
  (load true "checkpoint.pth" extra_world).1 =
    Raise (RuntimeError [UnexpectedKeys ["extra"]]) ∧
  ¬ (∃ a st', load false "checkpoint.pth" extra_world = (Ok a, st')).
Proof.
  assert ((load false "checkpoint.pth" extra_world).1 =
          Raise (RuntimeError [UnexpectedKeys ["extra"]])) as Hrun
    by (vm_compute; reflexivity).
  split_and!; [by_evaluation | by_evaluation | exact Hrun | exact Hrun |].
  intros (a & st' & Hload). rewrite Hload in Hrun. discriminate Hrun.
Qed.

(** What [load_state_dict] reports as unexpected is decided module by module
    from the next dotted component of a key, so an extra key nested below a
    parameter's own key goes unreported and the load succeeds. *)
Example nested_extra_key_is_not_reported :
  ("output.weight.old" ∉ required_keys arch2) ∧
  (load_checkpoint "checkpoint.pth" nested_extra_world).1 = Ok 0.
Proof. split; [by_evaluation | vm_compute; reflexivity]. Qed.

(** ** Loading into a network of another shape *)


Lemma load_result_512_into_400 sd ls0 out0 :
  shapes_match arch512 sd →
  fresh_layers 784 [400; 200; 100]%Z ls0 →
  fresh_linear 100 10 out0 →
  ∃ b, dict_get "output.bias" sd = Some b ∧
       load_result (tensor_vals sd) ls0 out0 =
         (mkNetwork ls0 (mkLinear (in_features out0) (out_features out0)
                           (weight out0) b),
          size_mismatches).
Proof.
  unfold shapes_match. intros Hsh Hls (_ & _ & How & Hob).
  let rhs := eval vm_compute in (expected_shapes arch512) in
    change (shapes_of sd = rhs) in Hsh.
  do 8 (destruct sd as [|[? ?] sd]; [discriminate Hsh|]).
  destruct sd; [|discriminate Hsh].
  simpl in Hsh. simplify_eq.
  destruct ls0 as [|l0 [|l1 [|l2 [|? ?]]]]; simpl in Hls; try tauto.
  destruct Hls as ((_ & _ & Hw0 & Hb0) & (_ & _ & Hw1 & Hb1) &
                   (_ & _ & Hw2 & Hb2) & _).
  eexists. split; [reflexivity|].
  unfold load_result, load_hidden, load_linear, load_param.
  rewrite hidden_prefix_0, hidden_prefix_1, hidden_prefix_2.
  simpl.
  repeat match goal with H : shape _ = _ |- _ => rewrite H end.
  repeat (rewrite decide_False by discriminate).
  rewrite decide_True by done.
  match goal with
  | |- context [unexpected_keys ?n ?ks] =>
      let r := eval vm_compute in (unexpected_keys n ks) in
      change (unexpected_keys n ks) with r
  end.
  rewrite copy_same_shape by congruence.
  destruct l0, l1, l2. reflexivity.
Qed.

Lemma try_this_spec st sd :
  ∃ ls0 out0 n,
    fresh_layers 784 [400; 200; 100]%Z ls0 ∧ fresh_linear 100 10 out0 ∧
    try_this (VDict sd) st =
      (match (load_result sd ls0 out0).2 with
       | [] => Ok (length (models st))
       | msgs => Raise (RuntimeError msgs)
       end, after_alloc st (load_result sd ls0 out0).1 n).
Proof.
  destruct (fc_model_Network_spec 784 10 400 [200; 100]%Z st)
    as (ls0 & out0 & n & Hnew & Hls & Hout).
  exists ls0, out0, n. split; [done|]. split; [done|].
  destruct (load_state_dict_new st (mkNetwork ls0 out0) n sd) as [ks Hload].
  unfold try_this. monad_unfold. rewrite Hnew, Hload. simpl.
  by destruct (load_result sd ls0 out0).2.
Qed.

(** C2, amended: loading a parameter record built for architecture
    (784, 10, [512,256,128]) into a model constructed with architecture
    (784, 10, [400,200,100]) always fails, never silently; the exception is
    the [RuntimeError] raised by [load_state_dict], whose message lists the
    seven size mismatches the notebook shows; this holds for the "Try this"
    cell and for [load_checkpoint] on a checkpoint that pairs the record with
    the second architecture. *)
Theorem shape_mismatch_raises_runtime_error st sd :
  shapes_match arch512 sd →
  (∃ st', try_this (VDict (tensor_vals sd)) st =
            (Raise (RuntimeError size_mismatches), st')) ∧
  (∀ path,
     files st !! path = Some (checkpoint_of arch400 (tensor_vals sd)) →
     ∃ st', load_checkpoint path st =
              (Raise (RuntimeError size_mismatches), st')) ∧
  error_name (RuntimeError size_mismatches) = "RuntimeError".
Proof.
  intros Hsh. split_and!; [| |done].
  - destruct (try_this_spec st (tensor_vals sd))
      as (ls0 & out0 & n & Hls & Hout & ->).
    destruct (load_result_512_into_400 sd ls0 out0 Hsh Hls Hout)
      as (b & _ & ->).
    by eexists.
  - intros path Hfile.
    destruct (load_checkpoint_main st path arch400 _ Hfile)
      as (ls0 & out0 & n & Hls & Hout & ->); [done|].
    destruct (load_result_512_into_400 sd ls0 out0 Hsh Hls Hout)
      as (b & _ & ->).
    by eexists.
Qed.

Lemma shape_mismatch_raises_runtime_error_witness :
  (∃ st', try_this (VDict (tensor_vals record512)) world0 =
            (Raise (RuntimeError size_mismatches), st')) ∧
  (∀ path,
     files world0 !! path = Some (checkpoint_of arch400 (tensor_vals record512)) →
     ∃ st', load_checkpoint path world0 =
              (Raise (RuntimeError size_mismatches), st')) ∧
  error_name (RuntimeError size_mismatches) = "RuntimeError".
Proof.
  apply (shape_mismatch_raises_runtime_error world0 record512).
  vm_compute. reflexivity.
Defined.

(** C2 as stated fails: the failure is a [RuntimeError], not a
    [ShapeMismatchError]. *)
Lemma shape_mismatch_is_not_a_specific_error :
  shapes_match arch512 record512 ∧
  (try_this (VDict (tensor_vals record512)) world0).1 =
    Raise (RuntimeError size_mismatches) ∧
  ¬ (∃ e st', try_this (VDict (tensor_vals record512)) world0 = (Raise e, st') ∧
              error_name e = "ShapeMismatchError").
Proof.
  assert ((try_this (VDict (tensor_vals record512)) world0).1 =
          Raise (RuntimeError size_mismatches)) as Hrun
    by (vm_compute; reflexivity).
  split_and!; [vm_compute; reflexivity | exact Hrun |].
  intros (e & st' & Hload & Hname). rewrite Hload in Hrun. simpl in Hrun.
  injection Hrun as ->. discriminate Hname.
Qed.

(** [load_state_dict] itself is not all-or-nothing: in the "Try this" cell
    the one parameter whose size agrees, [output.bias], has been copied into
    the new model when the exception is raised. *)
Lemma try_this_copies_output_bias st sd :
  shapes_match arch512 sd →
  ∃ b m, dict_get "output.bias" sd = Some b ∧
         models (try_this (VDict (tensor_vals sd)) st).2 !! length (models st)
           = Some m ∧
         bias (output m) = b.
Proof.
  intros Hsh.
  destruct (try_this_spec st (tensor_vals sd))
    as (ls0 & out0 & n & Hls & Hout & ->).
  destruct (load_result_512_into_400 sd ls0 out0 Hsh Hls Hout)
    as (b & Hb & ->).
  eexists b, _. split; [done|]. split; [by apply list_lookup_middle|done].
Qed.

(** ** Non-finite values *)

Lemma non_finite_patterns :
  is_nan nan = true ∧ is_inf inf = true ∧ is_inf neg_inf = true.
Proof. by vm_compute. Qed.

(** C6, amended: for every model that holds 784 inputs and 10 outputs and is
    well shaped, the save cell followed by [load_checkpoint] returns a model
    that holds every parameter array of the saved model bit for bit, whatever
    its values.  In particular an array that contains a NaN or an infinity is
    reproduced as a whole, and every NaN and every infinity is found again
    under the same key, at the same position and with the same bits.  The
    cells and [load_state_dict] never look at the values; that [torch.save]
    and [torch.load] write and read the raw storage of a tensor is how the
    library is modelled here. *)
Theorem non_finite_values_round_trip st model m :
  models st !! model = Some m →
  well_shaped m →
  input_size (descriptor m) = 784%Z →
  output_size (descriptor m) = 10%Z →
  exact_round_trip st model m.
Proof.
  intros Hm [(_ & _ & Hne & _) Hsh] Hin Hout.
  assert (hidden_layers m ≠ []) as Hne'.
  { intros E. apply Hne. unfold descriptor. simpl. by rewrite E. }
  destruct (load_after_save st model m Hm Hsh Hne' Hin Hout)
    as (m' & n & Hload & Hst & Hd).
  eexists (length (models st)), _, m'. split; [exact Hload|].
  split; [apply (lookup_after_alloc (write_file _ _ st))|].
  split; [exact Hst|]. split.
  - intros key t Hkey _. by rewrite Hst.
  - intros key t i b Hkey Hb _. exists t. by rewrite Hst.
Qed.

Lemma non_finite_values_round_trip_witness :
  (∃ t, dict_get "hidden_layers.0.weight"
          (state_dict (model_at non_finite_built 0)) = Some t ∧
        data t !! 0 = Some nan ∧ data t !! 1 = Some inf ∧
        non_finite nan = true ∧ non_finite inf = true) ∧
  exact_round_trip non_finite_built 0 (model_at non_finite_built 0).
Proof.
  split.
  - eexists. split_and!; vm_compute; reflexivity.
  - apply non_finite_values_round_trip.
    + vm_compute. reflexivity.
    + split; [solve_valid_descriptor | vm_compute; reflexivity].
    + vm_compute. reflexivity.
    + vm_compute. reflexivity.
Defined.

(** C6 as stated fails: a well shaped 3-4-2 network with NaN and infinite
    parameters is not reproduced, because its checkpoint does not load. *)
Lemma non_finite_values_lost_small :
  models non_finite_small_world !! 0 = Some non_finite_small_model ∧
  well_shaped non_finite_small_model ∧
  (∃ t, dict_get "output.bias" (state_dict non_finite_small_model) = Some t ∧
        data t = [nan; inf] ∧ non_finite nan = true ∧ non_finite inf = true) ∧
  ¬ non_finite_round_trip non_finite_small_world 0 non_finite_small_model.
Proof.
  split; [reflexivity|]. split_and!.
  - split; [solve_valid_descriptor | vm_compute; reflexivity].
  - eexists. split_and!; vm_compute; reflexivity.
  - intros (a' & st' & m' & Hload & _).
    apply (f_equal fst) in Hload. vm_compute in Hload. discriminate.
Qed.

(** ** The saved checkpoint *)

Lemma checkpoint_784_10 m :
  input_size (descriptor m) = 784%Z → output_size (descriptor m) = 10%Z →
  checkpoint m = checkpoint_of (descriptor m) (tensor_vals (state_dict m)).
Proof.
  unfold checkpoint, checkpoint_of, descriptor. simpl. by intros -> ->.
Qed.

(** C9, amended: for every well shaped model that holds 784 inputs and 10
    outputs, the checkpoint the save cell writes satisfies the shape invariant
    between its descriptor and its parameter record (the hidden sizes are read
    from the layers whose arrays are saved), and loading the unmodified file
    succeeds. *)
Theorem saved_checkpoint_consistent st model m :
  models st !! model = Some m →
  well_shaped m →
  input_size (descriptor m) = 784%Z →
  output_size (descriptor m) = 10%Z →
  saved_checkpoint_is_consistent st model m.
Proof.
  intros Hm [(_ & _ & Hne & _) Hsh] Hin Hout.
  assert (hidden_layers m ≠ []) as Hne'.
  { intros E. apply Hne. unfold descriptor. simpl. by rewrite E. }
  split_and!.
  - exists (descriptor m), (state_dict m). split; [|done].
    by apply checkpoint_784_10.
  - rewrite (save_checkpoint_spec _ _ _ Hm). simpl. by rewrite lookup_insert_eq.
  - destruct (load_after_save st model m Hm Hsh Hne' Hin Hout)
      as (m' & n & Hload & _).
    by eexists _, _.
Qed.

Lemma saved_checkpoint_consistent_witness :
  saved_checkpoint_is_consistent (built 784 10 [2]%Z) 0
    (model_at (built 784 10 [2]%Z) 0).
Proof.
  apply saved_checkpoint_consistent.
  - vm_compute. reflexivity.
  - split; [solve_valid_descriptor | vm_compute; reflexivity].
  - vm_compute. reflexivity.
  - vm_compute. reflexivity.
Defined.

Local Instance VTensor_inj : Inj (=) (=) VTensor.
Proof. by intros t1 t2 [= ->]. Qed.

Lemma tensor_vals_inj sd1 sd2 : tensor_vals sd1 = tensor_vals sd2 → sd1 = sd2.
Proof. unfold tensor_vals. apply (inj (fmap (prod_map id VTensor))). Qed.

(** C9 as stated fails: the descriptor of the checkpoint written for a well
    shaped 3-4-2 network says 784 inputs and 10 outputs, its record does not
    match it, and loading the unmodified file reports size mismatches. *)
Lemma saved_checkpoint_inconsistent_small :
  models small_world !! 0 = Some small_model ∧
  well_shaped small_model ∧
  ¬ checkpoint_invariant (checkpoint small_model) ∧
  (load_checkpoint "checkpoint.pth" small_saved).1 =
    Raise (RuntimeError
             [SizeMismatch "hidden_layers.0.weight" [4; 3]%Z [4; 784]%Z;
              SizeMismatch "output.weight" [2; 4]%Z [10; 4]%Z;
              SizeMismatch "output.bias" [2]%Z [10]%Z]) ∧
  ¬ saved_checkpoint_is_consistent small_world 0 small_model.
Proof.
  assert (¬ checkpoint_invariant (checkpoint small_model)) as Hinv.
  { intros ([i o sizes] & sd & Hcp & Hsh).
    unfold checkpoint, checkpoint_of, state_dict_val in Hcp.
    cbn [input_size output_size hidden_layer_sizes] in Hcp.
    injection Hcp as <- <- <- Hsd.
    apply (tensor_vals_inj (state_dict small_model) sd) in Hsd. subst sd.
    vm_compute in Hsh. discriminate Hsh. }
  split; [reflexivity|]. split_and!.
  - split; [solve_valid_descriptor | vm_compute; reflexivity].
  - exact Hinv.
  - vm_compute. reflexivity.
  - intros (Hcp & _). by apply Hinv.
Qed.

(** ** The outputs recorded in the notebook *)

(** The embedding reproduces what the notebook printed: the keys of the
    state dict, "All keys matched successfully", the [RuntimeError] of the
    "Try this" cell with its seven size mismatches, and the model printed
    after [load_checkpoint]. *)
Example notebook_outputs :
  py_keys loaded_state_dict =
    ["hidden_layers.0.weight"; "hidden_layers.0.bias";
     "hidden_layers.1.weight"; "hidden_layers.1.bias";
     "hidden_layers.2.weight"; "hidden_layers.2.bias";
     "output.weight"; "output.bias"] ∧
  cell_16.1 = Ok ([], []) ∧
  cell_17.1 = Raise (RuntimeError size_mismatches) ∧
  cell_20.1 = Ok 2 ∧
  printed (model_at cell_20.2 2) =
    ([(784, 400); (400, 200); (200, 100)], (100, 10))%Z.
Proof. split_and!; vm_compute; reflexivity. Qed.

(** * Further properties of the cells *)

(** ** The keys of a state dict *)

Lemma hidden_state_keys_from ls : ∀ k key,
  key ∈ dict_keys (hidden_state k ls) →
  ∃ i name, k ≤ i ∧ key = hidden_prefix i +:+ name.
Proof.
  induction ls as [|l ls IH]; intros k key Hin; simpl in Hin.
  - by apply elem_of_nil in Hin.
  - apply elem_of_cons in Hin as [->|Hin]; [by exists k, "weight"|].
    apply elem_of_cons in Hin as [->|Hin]; [by exists k, "bias"|].
    destruct (IH _ _ Hin) as (i & name & Hi & ->). exists i, name.
    split; [lia|done].
Qed.

Lemma hidden_state_keys_NoDup ls : ∀ k, NoDup (dict_keys (hidden_state k ls)).
Proof.
  induction ls as [|l ls IH]; intros k; simpl; [constructor|].
  apply NoDup_cons. split; [|apply NoDup_cons; split; [|apply IH]].
  - intros Hin. apply elem_of_cons in Hin as [Heq|Hin].
    + by apply append_inv_head in Heq.
    + apply hidden_state_keys_from in Hin as (i & name & Hi & Heq).
      apply hidden_key_inj in Heq as [-> _]. lia.
  - intros Hin.
    apply hidden_state_keys_from in Hin as (i & name & Hi & Heq).
    apply hidden_key_inj in Heq as [-> _]. lia.
Qed.

(** X9: the state dict of a network with [n] hidden layers has [2 n + 2]
    entries and no key occurs twice in it. *)
Theorem state_dict_keys_distinct m :
  NoDup (dict_keys (state_dict m)) ∧
  length (state_dict m) = 2 * length (hidden_layers m) + 2.
Proof.
  unfold state_dict, dict_keys. split.
  - rewrite fmap_app. apply NoDup_app. split_and!.
    + apply (hidden_state_keys_NoDup (hidden_layers m) 0).
    + intros key Hin Hout.
      apply hidden_state_keys_from in Hin as (i & name & _ & ->).
      rewrite hidden_key_unfold in Hout. simpl in Hout.
      apply elem_of_cons in Hout as [Heq|Hout]; [done|].
      apply elem_of_cons in Hout as [Heq|Hout]; [done|].
      by apply elem_of_nil in Hout.
    + simpl. apply NoDup_cons. split; [|apply NoDup_singleton].
      intros Hin. apply list_elem_of_singleton in Hin. done.
  - rewrite length_app. simpl.
    assert (∀ ls k, length (hidden_state k ls) = 2 * length ls) as Hlen.
    { induction ls as [|l ls IH]; intros k; simpl; [done|]. rewrite IH. lia. }
    rewrite Hlen. lia.
Qed.

(** ** What load_state_dict keeps *)

Lemma load_param_shape sd key p : shape (load_param sd key p).1.1 = shape p.
Proof.
  unfold load_param. destruct (dict_get key sd) as [[| |t|]|]; simpl; try done.
  by destruct (decide _).
Qed.

Lemma load_linear_kept sd prefix l :
  let l' := (load_linear sd prefix l).1.1 in
  in_features l' = in_features l ∧ out_features l' = out_features l ∧
  shape (weight l') = shape (weight l) ∧ shape (bias l') = shape (bias l).
Proof.
  unfold load_linear.
  pose proof (load_param_shape sd (prefix +:+ "weight") (weight l)) as Hw.
  pose proof (load_param_shape sd (prefix +:+ "bias") (bias l)) as Hb.
  destruct (load_param sd (prefix +:+ "weight") (weight l)) as [[w mw] ew].
  destruct (load_param sd (prefix +:+ "bias") (bias l)) as [[b mb] eb].
  done.
Qed.

Lemma load_hidden_kept sd ls : ∀ k,
  let ls' := (load_hidden sd k ls).1.1 in
  in_features <$> ls' = in_features <$> ls ∧
  out_features <$> ls' = out_features <$> ls ∧
  shapes_of (hidden_state k ls') = shapes_of (hidden_state k ls).
Proof.
  induction ls as [|l ls IH]; intros k; simpl; [done|].
  pose proof (load_linear_kept sd (hidden_prefix k) l) as (Hi & Ho & Hw & Hb).
  pose proof (IH (S k)) as (Hi' & Ho' & Hs').
  destruct (load_linear sd (hidden_prefix k) l) as [[l' ml] el].
  destruct (load_hidden sd (S k) ls) as [[ls' mr] er].
  unfold shapes_of in *. simpl in *. split_and!.
  - rewrite Hi. f_equal. exact Hi'.
  - rewrite Ho. f_equal. exact Ho'.
  - rewrite Hw, Hb. do 2 f_equal. exact Hs'.
Qed.

Lemma loaded_network_same_architecture sd m :
  same_architecture m
    (mkNetwork (load_hidden sd 0 (hidden_layers m)).1.1
               (load_linear sd "output." (output m)).1.1).
Proof.
  pose proof (load_hidden_kept sd (hidden_layers m) 0) as (Hi & Ho & Hs).
  pose proof (load_linear_kept sd "output." (output m)) as (Hoi & Hoo & How & Hob).
  split.
  - unfold descriptor. simpl. rewrite Ho, Hoo. f_equal.
    destruct (load_hidden sd 0 (hidden_layers m)).1.1 as [|l' ls'],
      (hidden_layers m) as [|l ls]; simpl in *; congruence.
  - unfold state_dict, shapes_of in *. simpl. rewrite !fmap_app, Hs. simpl.
    by rewrite How, Hob.
Qed.

(** X2: [load_state_dict] never changes the architecture of the model it is
    called on.  Whatever object is passed as state dict, strict or not, and
    whether the call returns or raises, the model keeps its sizes and the
    shape of every parameter, every other live object is untouched and no
    file changes. *)
Theorem load_state_dict_keeps_architecture st model m v strict :
  models st !! model = Some m →
  let st' := (load_state_dict model v strict st).2 in
  (∃ m', models st' !! model = Some m' ∧ same_architecture m m') ∧
  (∀ a, a ≠ model → models st' !! a = models st !! a) ∧
  files st' = files st.
Proof.
  intros Hm. unfold load_state_dict.
  destruct v as [| | |sd]; try (simpl; split_and!; try done; by exists m).
  unfold deref, store. monad_unfold. rewrite Hm.
  pose proof (loaded_network_same_architecture sd m) as Hsame.
  destruct (load_hidden sd 0 (hidden_layers m)) as [[hl mk1] em1].
  destruct (load_linear sd "output." (output m)) as [[out mk2] em2].
  simpl in *.
  assert (model < length (models st)) as Hlt by by eapply lookup_lt_Some.
  destruct (final_msgs _ _ _ _); simpl; (split_and!; [|
    intros a Hne; by apply list_lookup_insert_ne | done]);
    exists (mkNetwork hl out); (split; [by apply list_lookup_insert_eq|done]).
Qed.

Lemma load_state_dict_keeps_architecture_witness :
  let st' := (load_state_dict 0 (VDict broken_record) true saved2).2 in
  (∃ m', models st' !! 0 = Some m' ∧
         same_architecture (model_at saved2 0) m') ∧
  (∀ a, a ≠ 0 → models st' !! a = models saved2 !! a) ∧
  files st' = files saved2.
Proof.
  apply (load_state_dict_keeps_architecture saved2 0 (model_at saved2 0)).
  vm_compute. reflexivity.
Defined.

(** ** Loading the same state dict again *)

Lemma load_param_again sd key p :
  load_param sd key (load_param sd key p).1.1 = load_param sd key p.
Proof.
  unfold load_param. destruct (dict_get key sd) as [[| |t|]|]; simpl; try done.
  destruct (decide (shape t = shape p)) as [Heq|Hne]; simpl.
  - by rewrite decide_True.
  - by rewrite decide_False.
Qed.

Lemma load_linear_again sd prefix l :
  load_linear sd prefix (load_linear sd prefix l).1.1 = load_linear sd prefix l.
Proof.
  unfold load_linear.
  pose proof (load_param_again sd (prefix +:+ "weight") (weight l)) as Hw.
  pose proof (load_param_again sd (prefix +:+ "bias") (bias l)) as Hb.
  destruct (load_param sd (prefix +:+ "weight") (weight l)) as [[w mw] ew].
  destruct (load_param sd (prefix +:+ "bias") (bias l)) as [[b mb] eb].
  simpl in *. by rewrite Hw, Hb.
Qed.

Lemma load_hidden_again sd ls : ∀ k,
  load_hidden sd k (load_hidden sd k ls).1.1 = load_hidden sd k ls.
Proof.
  induction ls as [|l ls IH]; intros k; simpl; [done|].
  pose proof (load_linear_again sd (hidden_prefix k) l) as Hl.
  pose proof (IH (S k)) as Hr.
  destruct (load_linear sd (hidden_prefix k) l) as [[l' ml] el].
  destruct (load_hidden sd (S k) ls) as [[ls' mr] er].
  simpl in *. by rewrite Hl, Hr.
Qed.

(** X11: running [model.load_state_dict(state_dict)] a second time with the
    same state dict changes nothing: it ends the way the first call ended,
    with the same keys or the same exception, and leaves the world as the
    first call left it. *)
Theorem load_state_dict_twice st model v strict :
  let r1 := load_state_dict model v strict st in
  load_state_dict model v strict r1.2 = r1.
Proof.
  unfold load_state_dict. destruct v as [| | |sd]; try done.
  unfold deref, store. monad_unfold.
  destruct (models st !! model) as [m|] eqn:Hm; simpl; [|by rewrite Hm].
  assert (model < length (models st)) as Hlt by by eapply lookup_lt_Some.
  pose proof (load_hidden_again sd (hidden_layers m) 0) as Hh.
  pose proof (load_linear_again sd "output." (output m)) as Ho.
  pose proof (load_hidden_kept sd (hidden_layers m) 0) as (Hlen & _ & _).
  apply (f_equal length) in Hlen. rewrite !length_fmap in Hlen.
  destruct (load_hidden sd 0 (hidden_layers m)) as [[hl mk1] em1].
  destruct (load_linear sd "output." (output m)) as [[out mk2] em2].
  simpl in *.
  destruct (final_msgs strict (mk1 ++ mk2) _ (em1 ++ em2)) eqn:Emsgs; simpl;
    rewrite list_lookup_insert_eq by done; simpl;
    rewrite Hh, Ho, Hlen, Emsgs; simpl;
    by rewrite list_insert_insert_eq.
Qed.

(** ** The messages of load_checkpoint, read off the descriptor *)

Lemma load_param_report sd key p :
  (load_param sd key p).1.2 = (if dict_has key sd then [] else [key]) ∧
  (load_param sd key p).2 = option_list (entry_msg sd (key, shape p)).
Proof.
  unfold load_param, dict_has, entry_msg. simpl.
  destruct (dict_get key sd) as [[| |t|]|]; simpl; try done.
  by destruct (decide _).
Qed.

Lemma load_linear_report sd prefix l i o :
  fresh_linear i o l →
  let shapes := [(prefix +:+ "weight", [o; i]); (prefix +:+ "bias", [o])] in
  (load_linear sd prefix l).1.2 =
    filter (λ key, dict_has key sd = false) shapes.*1 ∧
  (load_linear sd prefix l).2 = omap (entry_msg sd) shapes.
Proof.
  intros (_ & _ & Hw & Hb). unfold load_linear.
  pose proof (load_param_report sd (prefix +:+ "weight") (weight l)) as [Mw Ew].
  pose proof (load_param_report sd (prefix +:+ "bias") (bias l)) as [Mb Eb].
  destruct (load_param sd (prefix +:+ "weight") (weight l)) as [[w mw] ew].
  destruct (load_param sd (prefix +:+ "bias") (bias l)) as [[b mb] eb].
  simpl in *. subst. rewrite Hw, Hb. split.
  - rewrite !filter_cons, filter_nil.
    destruct (dict_has (prefix +:+ "weight") sd),
      (dict_has (prefix +:+ "bias") sd); done.
  - destruct (entry_msg sd (prefix +:+ "weight", [o; i])),
      (entry_msg sd (prefix +:+ "bias", [o])); done.
Qed.

Lemma load_hidden_report sd sizes : ∀ k prev ls,
  fresh_layers prev sizes ls →
  (load_hidden sd k ls).1.2 =
    filter (λ key, dict_has key sd = false) (hidden_shapes k prev sizes).*1 ∧
  (load_hidden sd k ls).2 = omap (entry_msg sd) (hidden_shapes k prev sizes).
Proof.
  induction sizes as [|h sizes IH]; intros k prev [|l ls]; simpl; try done.
  intros [Hl Hls].
  pose proof (load_linear_report sd (hidden_prefix k) l prev h Hl) as [Ml El].
  pose proof (IH (S k) h ls Hls) as [Mr Er].
  destruct (load_linear sd (hidden_prefix k) l) as [[l' ml] el].
  destruct (load_hidden sd (S k) ls) as [[ls' mr] er].
  simpl in *. subst. split.
  - rewrite !filter_cons.
    destruct (decide (dict_has (hidden_prefix k +:+ "weight") sd = false)),
      (decide (dict_has (hidden_prefix k +:+ "bias") sd = false)); done.
  - destruct (entry_msg sd (hidden_prefix k +:+ "weight", [h; prev])),
      (entry_msg sd (hidden_prefix k +:+ "bias", [h])); done.
Qed.

Lemma load_result_report sd d ls0 out0 :
  fresh_layers (input_size d) (hidden_layer_sizes d) ls0 →
  fresh_linear (List.last (hidden_layer_sizes d) (input_size d))
    (output_size d) out0 →
  (load_result sd ls0 out0).2 =
    final_msgs true (missing_of d sd)
      (unexpected_keys (length (hidden_layer_sizes d)) (dict_keys sd))
      (mismatches_of d sd).
Proof.
  intros Hls Hout. unfold load_result, missing_of, mismatches_of,
    required_keys, expected_shapes.
  pose proof (load_hidden_report sd _ 0 _ _ Hls) as [Mh Eh].
  pose proof (load_linear_report sd "output." out0 _ _ Hout) as [Mo Eo].
  rewrite (fresh_layers_length _ _ _ Hls).
  destruct (load_hidden sd 0 ls0) as [[hl mk1] em1].
  destruct (load_linear sd "output." out0) as [[out mk2] em2].
  simpl in *. subst.
  rewrite fmap_app, filter_app, omap_app. done.
Qed.

Lemma fresh_hidden_shapes sizes : ∀ k prev ls,
  fresh_layers prev sizes ls →
  shapes_of (hidden_state k ls) = hidden_shapes k prev sizes ∧
  out_features <$> ls = sizes ∧
  (∀ l, head ls = Some l → in_features l = prev).
Proof.
  induction sizes as [|h sizes IH]; intros k prev [|l ls]; simpl; try done.
  intros [(Hi & Ho & Hw & Hb) Hls].
  destruct (IH (S k) h ls Hls) as (Hs & Hsizes & _).
  unfold shapes_of in *. simpl. split_and!.
  - rewrite Hw, Hb. do 2 f_equal. exact Hs.
  - rewrite Ho. f_equal. exact Hsizes.
  - by intros ? [= <-].
Qed.

Lemma fresh_network_shaped d ls out :
  fresh_layers (input_size d) (hidden_layer_sizes d) ls →
  fresh_linear (List.last (hidden_layer_sizes d) (input_size d))
    (output_size d) out →
  descriptor (mkNetwork ls out) = d ∧
  shapes_match d (state_dict (mkNetwork ls out)).
Proof.
  destruct d as [i o sizes]. simpl. intros Hls (Hoi & Hoo & How & Hob).
  destruct (fresh_hidden_shapes sizes 0 i ls Hls) as (Hs & Hsizes & Hhead).
  split.
  - unfold descriptor. simpl. rewrite Hsizes, Hoo. f_equal.
    destruct ls as [|l ls]; [|by apply Hhead].
    destruct sizes; [|done]. done.
  - unfold shapes_match, expected_shapes, state_dict, shapes_of in *. simpl.
    rewrite fmap_app, Hs. simpl. by rewrite How, Hob.
Qed.

Lemma load_param_value sd key p :
  (load_param sd key p).1.2 = [] → (load_param sd key p).2 = [] →
  dict_get key sd = Some (VTensor (load_param sd key p).1.1).
Proof.
  unfold load_param. destruct (dict_get key sd) as [[| |t|]|]; simpl; try done.
  destruct (decide (shape t = shape p)); simpl; [|done].
  intros _ _. by rewrite copy_same_shape.
Qed.

Lemma load_linear_values sd prefix l :
  (load_linear sd prefix l).1.2 = [] → (load_linear sd prefix l).2 = [] →
  Forall (λ kt, dict_get kt.1 sd = Some (VTensor kt.2))
    (linear_state prefix (load_linear sd prefix l).1.1).
Proof.
  unfold load_linear.
  pose proof (load_param_value sd (prefix +:+ "weight") (weight l)) as Hw.
  pose proof (load_param_value sd (prefix +:+ "bias") (bias l)) as Hb.
  destruct (load_param sd (prefix +:+ "weight") (weight l)) as [[w mw] ew].
  destruct (load_param sd (prefix +:+ "bias") (bias l)) as [[b mb] eb].
  simpl in *. intros [-> ->]%app_nil_inv [-> ->]%app_nil_inv.
  unfold linear_state. simpl.
  apply Forall_cons. split; [by apply Hw|].
  apply Forall_cons. split; [by apply Hb|constructor].
Qed.

Lemma load_hidden_values sd ls : ∀ k,
  (load_hidden sd k ls).1.2 = [] → (load_hidden sd k ls).2 = [] →
  Forall (λ kt, dict_get kt.1 sd = Some (VTensor kt.2))
    (hidden_state k (load_hidden sd k ls).1.1).
Proof.
  induction ls as [|l ls IH]; intros k; simpl; [constructor|].
  pose proof (load_linear_values sd (hidden_prefix k) l) as Hl.
  pose proof (IH (S k)) as Hr.
  destruct (load_linear sd (hidden_prefix k) l) as [[l' ml] el].
  destruct (load_hidden sd (S k) ls) as [[ls' mr] er].
  simpl in *. intros [-> ->]%app_nil_inv [-> ->]%app_nil_inv.
  apply Forall_cons_2; [|apply Forall_cons_2]; try apply Hr; try done.
  - by apply (Forall_inv (Hl eq_refl eq_refl)).
  - by apply (Forall_inv (Forall_inv_tail (Hl eq_refl eq_refl))).
Qed.

Lemma load_result_fst sd ls0 out0 :
  (load_result sd ls0 out0).1 =
    mkNetwork (load_hidden sd 0 ls0).1.1 (load_linear sd "output." out0).1.1.
Proof.
  unfold load_result.
  destruct (load_hidden sd 0 ls0) as [[hl mk1] em1].
  by destruct (load_linear sd "output." out0) as [[out mk2] em2].
Qed.

(** The main path with its messages read off the descriptor. *)
Lemma load_checkpoint_report st path d sd :
  files st !! path = Some (checkpoint_of d sd) →
  hidden_layer_sizes d ≠ [] →
  ∃ m' n,
    load_checkpoint path st =
      (match final_msgs true (missing_of d sd)
               (unexpected_keys (length (hidden_layer_sizes d)) (dict_keys sd))
               (mismatches_of d sd) with
       | [] => Ok (length (models st))
       | msgs => Raise (RuntimeError msgs)
       end, after_alloc st m' n) ∧
    descriptor m' = d ∧ shapes_match d (state_dict m') ∧
    (missing_of d sd = [] → mismatches_of d sd = [] →
     Forall (λ kt, dict_get kt.1 sd = Some (VTensor kt.2)) (state_dict m')).
Proof.
  intros Hfile Hne.
  destruct (load_checkpoint_main st path d sd Hfile Hne)
    as (ls0 & out0 & n & Hls & Hout & Hload).
  exists (load_result sd ls0 out0).1, n.
  rewrite (load_result_report sd d ls0 out0 Hls Hout) in Hload.
  split; [exact Hload|].
  destruct (fresh_network_shaped d ls0 out0 Hls Hout) as [Hd Hsh].
  destruct (loaded_network_same_architecture sd (mkNetwork ls0 out0))
    as [Hd' Hsh'].
  simpl in Hd', Hsh'. rewrite load_result_fst. split_and!.
  - by rewrite Hd'.
  - unfold shapes_match. by rewrite Hsh'.
  - intros Hmiss Hmism.
    pose proof (load_hidden_report sd _ 0 _ _ Hls) as [Mh Eh].
    pose proof (load_linear_report sd "output." out0 _ _ Hout) as [Mo Eo].
    unfold missing_of, mismatches_of, required_keys, expected_shapes in *.
    rewrite fmap_app, filter_app in Hmiss. rewrite omap_app in Hmism.
    apply app_nil_inv in Hmiss as [Hm1 Hm2].
    apply app_nil_inv in Hmism as [He1 He2].
    unfold state_dict. simpl. apply Forall_app. split.
    + apply load_hidden_values; congruence.
    + apply load_linear_values; [by rewrite Mo|by rewrite Eo].
Qed.

(** ** When load_checkpoint succeeds, and what it returns *)

Lemma entry_ok_iff sd k s :
  entry_ok sd (k, s) ↔ dict_has k sd = true ∧ entry_msg sd (k, s) = None.
Proof.
  unfold entry_ok, dict_has, entry_msg. simpl.
  destruct (dict_get k sd) as [[| |t|]|]; simpl;
    try (split; [by intros (t & [=] & _) | by intros [_ ?]]).
  - destruct (decide (shape t = s)) as [Hs|Hs].
    + split; [done|]. intros _. by exists t.
    + split; [by intros (t' & [= <-] & ?) | by intros [_ ?]].
  - split; [by intros (t & [=] & _) | by intros [? _]].
Qed.

Lemma entries_ok_iff sd (l : list (string * list Z)) :
  Forall (entry_ok sd) l ↔
  filter (λ key, dict_has key sd = false) l.*1 = [] ∧
  omap (entry_msg sd) l = [].
Proof.
  induction l as [|[k s] l IH]; [by split|].
  rewrite Forall_cons, IH, fmap_cons, filter_cons, entry_ok_iff. cbn [fst].
  change (omap (entry_msg sd) ((k, s) :: l)) with
    (match entry_msg sd (k, s) with
     | Some y => y :: omap (entry_msg sd) l
     | None => omap (entry_msg sd) l
     end).
  destruct (dict_has k sd), (entry_msg sd (k, s));
    [rewrite decide_False by done | rewrite decide_False by done
    | rewrite decide_True by done | rewrite decide_True by done];
    split; try (by intros [[? ?] ?]); try (by intros [? ?]).
Qed.

(** X3: [load_checkpoint] succeeds on a checkpoint with a valid descriptor
    exactly when the parameter record holds, under every required key, a
    tensor of the size the descriptor implies, and holds no key that
    [load_state_dict] reports as unexpected. *)
Theorem load_succeeds_iff st path d sd :
  valid_descriptor d →
  files st !! path = Some (checkpoint_of d sd) →
  (∃ a st', load_checkpoint path st = (Ok a, st')) ↔
  Forall (entry_ok sd) (expected_shapes d) ∧
  unexpected_keys (length (hidden_layer_sizes d)) (dict_keys sd) = [].
Proof.
  intros (_ & _ & Hne & _) Hfile.
  destruct (load_checkpoint_report st path d sd Hfile Hne)
    as (m' & n & -> & _).
  rewrite entries_ok_iff. fold (required_keys d).
  fold (missing_of d sd) (mismatches_of d sd).
  split.
  - intros (a & st' & Hload).
    destruct (final_msgs _ _ _ _) eqn:E; [|done].
    apply final_msgs_nil in E as (? & ? & ?). done.
  - intros [[-> ->] ->]. by eexists _, _.
Qed.

Lemma load_succeeds_iff_witness :
  (∃ a st', load_checkpoint "checkpoint.pth" extra_world = (Ok a, st')) ↔
  Forall (entry_ok (record2 ++ [("extra", VTensor (mkTensor [1%Z] [0%Z]))]))
    (expected_shapes arch2) ∧
  unexpected_keys (length (hidden_layer_sizes arch2))
    (dict_keys (record2 ++ [("extra", VTensor (mkTensor [1%Z] [0%Z]))])) = [].
Proof.
  apply (load_succeeds_iff extra_world "checkpoint.pth" arch2).
  - solve_valid_descriptor.
  - vm_compute. reflexivity.
Defined.

(** X4: the model [load_checkpoint] returns has exactly the architecture the
    file describes, its parameter arrays have the shapes that architecture
    implies, and each of them is the tensor the file's record holds under its
    key.  This holds for every checkpoint file, not only for those the save
    cell wrote. *)
Theorem loaded_model_is_the_file st path d sd a st' :
  valid_descriptor d →
  files st !! path = Some (checkpoint_of d sd) →
  load_checkpoint path st = (Ok a, st') →
  ∃ m', models st' !! a = Some m' ∧
        descriptor m' = d ∧
        shapes_match d (state_dict m') ∧
        Forall (λ kt, dict_get kt.1 sd = Some (VTensor kt.2)) (state_dict m').
Proof.
  intros (_ & _ & Hne & _) Hfile Hload.
  destruct (load_checkpoint_report st path d sd Hfile Hne)
    as (m' & n & Hrep & Hd & Hsh & Hvals).
  rewrite Hload in Hrep.
  destruct (final_msgs _ _ _ _) eqn:E; [|done].
  apply final_msgs_nil in E as (Hmiss & _ & Hmism).
  injection Hrep as -> ->. exists m'. split_and!; try done.
  - by apply list_lookup_middle.
  - by apply Hvals.
Qed.

Lemma loaded_model_is_the_file_witness :
  let r := load_checkpoint "checkpoint.pth" saved2 in
  ∃ m', models r.2 !! 1 = Some m' ∧
        descriptor m' = arch2 ∧
        shapes_match arch2 (state_dict m') ∧
        Forall (λ kt, dict_get kt.1 record2 = Some (VTensor kt.2))
          (state_dict m').
Proof.
  intros r.
  apply (loaded_model_is_the_file saved2 "checkpoint.pth" arch2 record2 1 r.2).
  - solve_valid_descriptor.
  - vm_compute. reflexivity.
  - apply injective_projections; [vm_compute; reflexivity | reflexivity].
Defined.

(** X5: for every valid architecture, a required key whose tensor in the
    record has another size than the architecture implies makes
    [load_checkpoint] fail with a [RuntimeError] that names the key, the size
    found in the checkpoint and the size in the model. *)
Theorem size_mismatch_is_reported st path d sd key s t :
  valid_descriptor d →
  files st !! path = Some (checkpoint_of d sd) →
  (key, s) ∈ expected_shapes d →
  dict_get key sd = Some (VTensor t) →
  shape t ≠ s →
  ∃ msgs st', load_checkpoint path st = (Raise (RuntimeError msgs), st') ∧
              SizeMismatch key (shape t) s ∈ msgs.
Proof.
  intros (_ & _ & Hne & _) Hfile Hin Hget Hshape.
  destruct (load_checkpoint_report st path d sd Hfile Hne)
    as (m' & n & -> & _).
  assert (SizeMismatch key (shape t) s ∈ mismatches_of d sd) as Hmsg.
  { unfold mismatches_of. apply list_elem_of_omap. exists (key, s).
    split; [done|]. unfold entry_msg. simpl. rewrite Hget.
    by rewrite decide_False. }
  assert (SizeMismatch key (shape t) s ∈
            final_msgs true (missing_of d sd)
              (unexpected_keys (length (hidden_layer_sizes d)) (dict_keys sd))
              (mismatches_of d sd)) as Hfinal.
  { unfold final_msgs. rewrite !elem_of_app. by right; right. }
  destruct (final_msgs _ _ _ _) as [|msg msgs];
    [by apply elem_of_nil in Hfinal|].
  by eexists _, _.
Qed.

Lemma size_mismatch_is_reported_witness :
  ∃ msgs st',
    load_checkpoint "checkpoint.pth" broken_world =
      (Raise (RuntimeError msgs), st') ∧
    SizeMismatch "output.weight" [1%Z] [10%Z; 2%Z] ∈ msgs.
Proof.
  apply (size_mismatch_is_reported broken_world "checkpoint.pth" arch2
           broken_record "output.weight" [10%Z; 2%Z] (mkTensor [1%Z] [0%Z])).
  - solve_valid_descriptor.
  - vm_compute. reflexivity.
  - by_evaluation.
  - vm_compute. reflexivity.
  - discriminate.
Defined.

(** X6: [load_checkpoint] reports every problem of a parameter record in one
    [RuntimeError] rather than the first it meets: the message lists the
    missing keys first, then the unexpected keys, then one size mismatch per
    ill-sized array, each list in the order of the model's layers. *)
Theorem all_problems_reported_together st path d sd k1 k2 s t k3 :
  valid_descriptor d →
  files st !! path = Some (checkpoint_of d sd) →
  k1 ∈ required_keys d → dict_get k1 sd = None →
  (k2, s) ∈ expected_shapes d → dict_get k2 sd = Some (VTensor t) →
  shape t ≠ s →
  k3 ∈ dict_keys sd →
  split_head k3 ∉ ["hidden_layers"; "output"; "dropout"] →
  let missing := missing_of d sd in
  let unexpected :=
    unexpected_keys (length (hidden_layer_sizes d)) (dict_keys sd) in
  let mismatches := mismatches_of d sd in
  (∃ st', load_checkpoint path st =
            (Raise (RuntimeError (MissingKeys missing ::
                                  UnexpectedKeys unexpected :: mismatches)),
             st')) ∧
  k1 ∈ missing ∧ k3 ∈ unexpected ∧ SizeMismatch k2 (shape t) s ∈ mismatches.
Proof.
  intros (_ & _ & Hne & _) Hfile Hk1 Hnone Hk2 Hget Hshape Hk3 Hhead.
  intros missing unexpected mismatches.
  destruct (load_checkpoint_report st path d sd Hfile Hne)
    as (m' & n & -> & _).
  fold missing unexpected mismatches.
  assert (k1 ∈ missing) as H1.
  { unfold missing, missing_of. apply list_elem_of_filter. split; [|done].
    unfold dict_has. by rewrite Hnone. }
  assert (k3 ∈ unexpected) as H3 by by apply unexpected_root_flagged.
  assert (SizeMismatch k2 (shape t) s ∈ mismatches) as H2.
  { unfold mismatches, mismatches_of. apply list_elem_of_omap. exists (k2, s).
    split; [done|]. unfold entry_msg. simpl. rewrite Hget.
    by rewrite decide_False. }
  split_and!; try done.
  unfold final_msgs.
  destruct missing; [by apply elem_of_nil in H1|].
  destruct unexpected; [by apply elem_of_nil in H3|].
  by eexists.
Qed.

Lemma all_problems_reported_together_witness :
  (∃ st', load_checkpoint "checkpoint.pth" broken_world =
            (Raise (RuntimeError
                      (MissingKeys (missing_of arch2 broken_record) ::
                       UnexpectedKeys
                         (unexpected_keys (length (hidden_layer_sizes arch2))
                            (dict_keys broken_record)) ::
                       mismatches_of arch2 broken_record)), st')) ∧
  "output.bias" ∈ missing_of arch2 broken_record ∧
  "extra" ∈ unexpected_keys (length (hidden_layer_sizes arch2))
              (dict_keys broken_record) ∧
  SizeMismatch "output.weight" [1%Z] [10%Z; 2%Z]
    ∈ mismatches_of arch2 broken_record.
Proof.
  apply (all_problems_reported_together broken_world "checkpoint.pth" arch2
           broken_record "output.bias" "output.weight" [10%Z; 2%Z]
           (mkTensor [1%Z] [0%Z]) "extra").
  - solve_valid_descriptor.
  - vm_compute. reflexivity.
  - by_evaluation.
  - vm_compute. reflexivity.
  - by_evaluation.
  - vm_compute. reflexivity.
  - discriminate.
  - by_evaluation.
  - by_evaluation.
Defined.

(** X7: a successful [load_checkpoint] allocates exactly one model object;
    the reference it returns named no object before the call, every object
    that existed and every file is unchanged, and an in-place update of the
    new model afterwards reaches none of the older objects. *)
Theorem load_success_allocates path st a st' :
  load_checkpoint path st = (Ok a, st') →
  models st !! a = None ∧ is_Some (models st' !! a) ∧
  length (models st') = S (length (models st)) ∧
  (∀ b, b < length (models st) → models st' !! b = models st !! b) ∧
  files st' = files st ∧
  (∀ m2 b, b < length (models st) →
     models (store a m2 st').2 !! b = models st !! b).
Proof.
  intros Hload.
  destruct (checkpoint_arch path (files st !! path)) as [[[i o] sizes]|e] eqn:E.
  2:{ rewrite (load_checkpoint_early path st e E) in Hload. done. }
  destruct (load_checkpoint_late path st i o sizes E)
    as (d & ls0 & out0 & n & _ & _ & _ & _ & Hlate).
  rewrite Hlate in Hload.
  destruct (dict_get "state_dict" d) as [[| | |sd]|]; try done.
  destruct (load_result sd ls0 out0).2; [|done].
  injection Hload as <- <-. simpl. split_and!.
  - by apply lookup_ge_None.
  - rewrite list_lookup_middle by done. by eexists.
  - rewrite length_app. simpl. lia.
  - intros b Hb. by apply lookup_app_l.
  - done.
  - intros m2 b Hb. rewrite list_lookup_insert_ne by lia.
    by apply lookup_app_l.
Qed.

Lemma load_success_allocates_witness :
  let r := load_checkpoint "checkpoint.pth" saved2 in
  models saved2 !! 1 = None ∧ is_Some (models r.2 !! 1) ∧
  length (models r.2) = S (length (models saved2)) ∧
  (∀ b, b < length (models saved2) → models r.2 !! b = models saved2 !! b) ∧
  files r.2 = files saved2 ∧
  (∀ m2 b, b < length (models saved2) →
     models (store 1 m2 r.2).2 !! b = models saved2 !! b).
Proof.
  intros r. apply (load_success_allocates "checkpoint.pth" saved2 1 r.2).
  apply injective_projections; [vm_compute; reflexivity | reflexivity].
Defined.

(** ** load_state_dict on a live model *)

Lemma load_state_dict_live st model m sd strict :
  models st !! model = Some m →
  let hl := load_hidden sd 0 (hidden_layers m) in
  let out := load_linear sd "output." (output m) in
  let unexpected := unexpected_keys (length (hidden_layers m)) (dict_keys sd) in
  load_state_dict model (VDict sd) strict st =
    (match final_msgs strict (hl.1.2 ++ out.1.2) unexpected (hl.2 ++ out.2) with
     | [] => Ok (hl.1.2 ++ out.1.2, unexpected)
     | msgs => Raise (RuntimeError msgs)
     end,
     mkState (<[model := mkNetwork hl.1.1 out.1.1]> (models st))
       (files st) (rng st) (drawn st)).
Proof.
  intros Hm. unfold load_state_dict, deref, store. monad_unfold. rewrite Hm.
  destruct (load_hidden sd 0 (hidden_layers m)) as [[hl mk1] em1].
  destruct (load_linear sd "output." (output m)) as [[out mk2] em2]. simpl.
  by destruct (final_msgs _ _ _ _).
Qed.

Lemma load_hidden_same_shapes ls1 : ∀ k ls2 sd,
  shapes_of (hidden_state k ls2) = shapes_of (hidden_state k ls1) →
  (∀ j l, ls1 !! j = Some l →
     dict_get (hidden_prefix (k + j) +:+ "weight") sd = Some (VTensor (weight l)) ∧
     dict_get (hidden_prefix (k + j) +:+ "bias") sd = Some (VTensor (bias l))) →
  ∃ ls', load_hidden sd k ls2 = (ls', [], []) ∧
         hidden_state k ls' = hidden_state k ls1 ∧
         (ls2 = ls1 → ls' = ls1).
Proof.
  induction ls1 as [|l1 ls1 IH]; intros k [|l2 ls2] sd Hsh Hget;
    try discriminate Hsh.
  - by exists [].
  - unfold shapes_of in *. simpl in Hsh. injection Hsh as Hw Hb Hsh.
    destruct (Hget 0 l1 eq_refl) as [Hgw Hgb]. rewrite Nat.add_0_r in Hgw, Hgb.
    destruct (IH (S k) ls2 sd Hsh) as (ls' & Hl & Hst & Hsame).
    { intros j l' Hj. replace (S k + j) with (k + S j) by lia.
      by apply Hget. }
    exists (mkLinear (in_features l2) (out_features l2) (weight l1) (bias l1)
              :: ls').
    simpl. unfold load_linear.
    rewrite (load_param_hit _ _ _ _ Hgw) by done.
    rewrite (load_param_hit _ _ _ _ Hgb) by done.
    rewrite Hl. split_and!; simpl.
    + done.
    + by rewrite Hst.
    + intros [= -> ->]. rewrite Hsame by done. by destruct l1.
Qed.

(** X1: the state dict cells compose to an exact copy.  When the state dict
    of one model is saved with [torch.save], read back with [torch.load] and
    loaded with [load_state_dict] into a model whose parameters have the same
    shapes, the call returns no missing and no unexpected key ("All keys
    matched successfully"), the target then holds exactly the saved arrays
    and keeps its own sizes, and nothing else changes; when the target is the
    saved model itself, it is left as it was.  No assumption on the
    architecture is needed. *)
Theorem state_dict_round_trip st a b m1 m2 :
  models st !! a = Some m1 →
  models st !! b = Some m2 →
  shapes_of (state_dict m2) = shapes_of (state_dict m1) →
  let st1 := (save_state_dict a st).2 in
  ∃ m2',
    (sd ← load_state_dict_file; load_state_dict b sd true) st1 =
      (Ok ([], []),
       mkState (<[b := m2']> (models st)) (files st1) (rng st) (drawn st)) ∧
    state_dict m2' = state_dict m1 ∧
    descriptor m2' = descriptor m2 ∧
    (b = a → m2' = m1).
Proof.
  intros Ha Hb Hsh st1.
  assert (st1 = write_file "checkpoint.pth" (state_dict_val m1) st) as ->.
  { unfold st1, save_state_dict, deref, torch_save. monad_unfold.
    by rewrite Ha. }
  unfold load_state_dict_file, torch_load. monad_unfold.
  unfold write_file at 1. simpl. rewrite lookup_insert_eq.
  unfold state_dict_val. fold (tensor_vals (state_dict m1)).
  rewrite (load_state_dict_live _ b m2) by done. simpl.
  pose proof (loaded_network_same_architecture
                (tensor_vals (state_dict m1)) m2) as [Hdesc _].
  unfold state_dict, shapes_of in Hsh. rewrite !fmap_app in Hsh.
  apply app_inj_2 in Hsh as [Hhid Hout]; [|done].
  simpl in Hout. injection Hout as How Hob.
  destruct (load_hidden_same_shapes (hidden_layers m1) 0 (hidden_layers m2)
              (tensor_vals (state_dict m1)) Hhid)
    as (ls' & Hload & Hstate & Hsame).
  { intros j l Hj. rewrite !dict_get_tensor_vals. unfold state_dict.
    rewrite (dict_get_hidden_weight _ 0 j l), (dict_get_hidden_bias _ 0 j l);
      done. }
  assert (load_linear (tensor_vals (state_dict m1)) "output." (output m2) =
          (mkLinear (in_features (output m2)) (out_features (output m2))
             (weight (output m1)) (bias (output m1)), [], [])) as Hlin.
  { unfold load_linear.
    rewrite (load_param_hit _ _ _ (weight (output m1))); [|
      rewrite dict_get_tensor_vals; unfold state_dict;
      by rewrite (dict_get_output _ "weight") | done].
    rewrite (load_param_hit _ _ _ (bias (output m1))); [|
      rewrite dict_get_tensor_vals; unfold state_dict;
      by rewrite (dict_get_output _ "bias") | done].
    done. }
  rewrite Hload, Hlin in Hdesc. rewrite Hload, Hlin. simpl in *.
  assert (length (hidden_layers m2) = length (hidden_layers m1)) as Hlen.
  { apply (f_equal length) in Hhid. rewrite !length_fmap in Hhid.
    assert (∀ ls k, length (hidden_state k ls) = 2 * length ls) as Hl.
    { induction ls as [|l ls IH]; intros k; simpl; [done|]. rewrite IH. lia. }
    rewrite !Hl in Hhid. lia. }
  rewrite unexpected_keys_nil by (rewrite Hlen; apply state_dict_keys).
  eexists. split; [reflexivity|]. split_and!.
  - unfold state_dict. simpl. by rewrite Hstate.
  - exact Hdesc.
  - intros ->. assert (m2 = m1) as -> by congruence.
    rewrite Hsame by done. destruct m1 as [hs [oi oo ow ob]]. done.
Qed.

Lemma state_dict_round_trip_witness :
  let st1 := (save_state_dict 0 two_models).2 in
  ∃ m2',
    (sd ← load_state_dict_file; load_state_dict 1 sd true) st1 =
      (Ok ([], []),
       mkState (<[1 := m2']> (models two_models)) (files st1)
         (rng two_models) (drawn two_models)) ∧
    state_dict m2' = state_dict (model_at two_models 0) ∧
    descriptor m2' = descriptor (model_at two_models 1) ∧
    (1 = 0 → m2' = model_at two_models 0).
Proof.
  apply (state_dict_round_trip two_models 0 1
           (model_at two_models 0) (model_at two_models 1)).
  - vm_compute. reflexivity.
  - vm_compute. reflexivity.
  - vm_compute. reflexivity.
Defined.

(** ** A composite checkpoint is not a state dict *)

Lemma load_param_absent sd key p :
  dict_get key sd = None → load_param sd key p = (p, [key], []).
Proof. intros H. unfold load_param. by rewrite H. Qed.

Lemma load_hidden_absent sd ls : ∀ k,
  (∀ i name, dict_get (hidden_prefix i +:+ name) sd = None) →
  load_hidden sd k ls = (ls, dict_keys (hidden_state k ls), []).
Proof.
  induction ls as [|l ls IH]; intros k Hnone; simpl; [done|].
  unfold load_linear. rewrite !load_param_absent by apply Hnone.
  rewrite IH by done. simpl. by destruct l.
Qed.

Lemma checkpoint_has_no_hidden_key m i name :
  dict_get (hidden_prefix i +:+ name)
    [("input_size", VInt 784); ("output_size", VInt 10);
     ("hidden_layers", VIntList (out_features <$> hidden_layers m));
     ("state_dict", state_dict_val m)] = None.
Proof. rewrite hidden_key_unfold. reflexivity. Qed.

(** X8: the two file formats of the notebook do not mix in this direction
    either.  When the file written by the [checkpoint] cell is read back with
    [torch.load] and handed to [load_state_dict] as if it were a state dict,
    the call raises a [RuntimeError] that lists every parameter key of the
    target model as missing and ['input_size'], ['output_size'] and
    ['state_dict'] as unexpected; the target model is left exactly as it was. *)
Theorem checkpoint_is_not_a_state_dict st a b m mt :
  models st !! a = Some m →
  models st !! b = Some mt →
  let st1 := (save_checkpoint a st).2 in
  ∃ unexpected,
    (sd ← load_state_dict_file; load_state_dict b sd true) st1 =
      (Raise (RuntimeError [MissingKeys (dict_keys (state_dict mt));
                            UnexpectedKeys unexpected]), st1) ∧
    "input_size" ∈ unexpected ∧ "output_size" ∈ unexpected ∧
    "state_dict" ∈ unexpected.
Proof.
  intros Ha Hb st1.
  assert (st1 = write_file "checkpoint.pth" (checkpoint m) st) as ->.
  { unfold st1. by rewrite (save_checkpoint_spec _ _ _ Ha). }
  unfold load_state_dict_file, torch_load. monad_unfold.
  unfold write_file at 1. simpl. rewrite lookup_insert_eq.
  unfold checkpoint.
  rewrite (load_state_dict_live _ b mt) by done. simpl.
  rewrite load_hidden_absent by apply checkpoint_has_no_hidden_key.
  cbn [fst snd].
  set (unexpected := unexpected_keys _ _).
  assert ("input_size" ∈ unexpected ∧ "output_size" ∈ unexpected ∧
          "state_dict" ∈ unexpected) as (H1 & H2 & H3).
  { unfold unexpected.
    split_and!; apply unexpected_root_flagged; by_evaluation. }
  exists unexpected. split; [|done]. unfold write_file.
  replace (mkNetwork (hidden_layers mt)
             (mkLinear (in_features (output mt)) (out_features (output mt))
                (weight (output mt)) (bias (output mt)))) with mt
    by (by destruct mt as [hs [? ? ? ?]]).
  rewrite list_insert_id by done.
  unfold final_msgs, state_dict, dict_keys. rewrite fmap_app. simpl.
  destruct unexpected; [by apply elem_of_nil in H1|].
  destruct (hidden_state 0 (hidden_layers mt)); reflexivity.
Qed.

Lemma checkpoint_is_not_a_state_dict_witness :
  let st1 := (save_checkpoint 0 two_models).2 in
  ∃ unexpected,
    (sd ← load_state_dict_file; load_state_dict 1 sd true) st1 =
      (Raise (RuntimeError
                [MissingKeys (dict_keys (state_dict (model_at two_models 1)));
                 UnexpectedKeys unexpected]), st1) ∧
    "input_size" ∈ unexpected ∧ "output_size" ∈ unexpected ∧
    "state_dict" ∈ unexpected.
Proof.
  apply (checkpoint_is_not_a_state_dict two_models 0 1
           (model_at two_models 0) (model_at two_models 1)).
  - vm_compute. reflexivity.
  - vm_compute. reflexivity.
Defined.

(** ** The model left behind by the failed load is the one that is saved *)

Lemma dict_get_shape (sd : list (string * Tensor)) key t :
  dict_get key sd = Some t → (key, shape t) ∈ shapes_of sd.
Proof.
  unfold shapes_of. induction sd as [|[k v] sd IH]; simpl; [done|].
  destruct (String.eqb key k) eqn:E.
  - apply String.eqb_eq in E as ->. intros [= ->]. by left.
  - intros H. right. by apply IH.
Qed.

Lemma output_bias_shape_512 sd b :
  shapes_match arch512 sd → dict_get "output.bias" sd = Some b →
  shape b = [10%Z].
Proof.
  unfold shapes_match. intros Hsh Hb. apply dict_get_shape in Hb.
  rewrite Hsh in Hb.
  let rhs := eval vm_compute in (expected_shapes arch512) in
    change (("output.bias", shape b) ∈ rhs) in Hb.
  repeat (apply elem_of_cons in Hb as [Hb|Hb]; [by simplify_eq|]).
  by apply elem_of_nil in Hb.
Qed.

Lemma dict_get_app_r {V} key (l1 l2 : list (string * V)) :
  key ∉ dict_keys l1 → dict_get key (l1 ++ l2) = dict_get key l2.
Proof.
  induction l1 as [|[k v] l1 IH]; simpl; [done|]. intros Hnot.
  destruct (String.eqb_spec key k) as [->|Hne].
  - exfalso. apply Hnot. by left.
  - apply IH. intros Hin. apply Hnot. by right.
Qed.

Lemma try_this_constructed st sd ls0 out0 n :
  fc_model_Network 784 10 [400; 200; 100]%Z st =
    (Ok (length (models st)), after_alloc st (mkNetwork ls0 out0) n) →
  try_this (VDict sd) st =
    (match (load_result sd ls0 out0).2 with
     | [] => Ok (length (models st))
     | msgs => Raise (RuntimeError msgs)
     end, after_alloc st (load_result sd ls0 out0).1 n).
Proof.
  intros Hnew.
  destruct (load_state_dict_new st (mkNetwork ls0 out0) n sd) as [ks Hload].
  unfold try_this. monad_unfold. rewrite Hnew, Hload. simpl.
  by destruct (load_result sd ls0 out0).2.
Qed.

(** X10: why the notebook ends with a 784-400-200-100-10 network.  The cell
    marked "Try this" binds [model] to the new network before
    [load_state_dict] raises.  For every parameter record of the
    784-512-256-128-10 architecture the cell ends in the [RuntimeError] with
    the seven size mismatches, and the object behind [model] is then the
    network the constructor alone would have left there, [m0], with one
    change: its ['output.bias'] holds the record's values.  Every other
    parameter array and every size is as the constructor initialised it.  The
    [checkpoint] cell run on that object followed by [load_checkpoint]
    succeeds and returns a further network of architecture
    (784, 10, [400, 200, 100]) with exactly those parameters. *)
Theorem failed_load_leaves_the_saved_model st sd :
  shapes_match arch512 sd →
  let model := length (models st) in
  let st0 := (fc_model_Network 784 10 [400; 200; 100]%Z st).2 in
  let r1 := try_this (VDict (tensor_vals sd)) st in
  ∃ m0 b,
    models st0 !! model = Some m0 ∧
    dict_get "output.bias" sd = Some b ∧
    let m := mkNetwork (hidden_layers m0)
               (mkLinear (in_features (output m0)) (out_features (output m0))
                  (weight (output m0)) b) in
    r1.1 = Raise (RuntimeError size_mismatches) ∧
    models r1.2 !! model = Some m ∧
    (∀ a, a < model → models r1.2 !! a = models st !! a) ∧
    (∀ key, key ≠ "output.bias" →
       dict_get key (state_dict m) = dict_get key (state_dict m0)) ∧
    dict_get "output.bias" (state_dict m) = Some (copy_ (bias (output m0)) b) ∧
    descriptor m = arch400 ∧
    shapes_match arch400 (state_dict m) ∧
    ∃ m' st3,
      load_checkpoint "checkpoint.pth" (save_checkpoint model r1.2).2 =
        (Ok (S model), st3) ∧
      models st3 !! S model = Some m' ∧
      state_dict m' = state_dict m ∧ descriptor m' = arch400.
Proof.
  intros Hsh model st0 r1. unfold st0, r1, model.
  destruct (fc_model_Network_spec 784 10 400 [200; 100]%Z st)
    as (ls0 & out0 & n & Hnew & Hls & Hout).
  rewrite (try_this_constructed st _ ls0 out0 n Hnew), Hnew.
  destruct (load_result_512_into_400 sd ls0 out0 Hsh Hls Hout)
    as (b & Hb & ->).
  cbn [fst snd].
  pose proof (output_bias_shape_512 sd b Hsh Hb) as Hshape.
  exists (mkNetwork ls0 out0), b.
  split; [apply lookup_after_alloc|]. split; [exact Hb|].
  cbn [hidden_layers output].
  set (m := mkNetwork ls0 _).
  destruct (fresh_network_shaped arch400 ls0 (output m)) as [Hd Hm].
  { exact Hls. }
  { destruct Hout as (? & ? & ? & ?). by split_and!. }
  change (mkNetwork ls0 (output m)) with m in Hd, Hm.
  split; [done|]. split; [apply lookup_after_alloc|].
  split. { intros a Ha. simpl. by apply lookup_app_l. }
  split.
  { intros key Hkey. unfold state_dict, m. cbn [hidden_layers output].
    generalize (hidden_state 0 ls0). clear -Hkey.
    induction l as [|[k t] l IH]; simpl.
    - destruct (String.eqb key "output.weight"); [done|].
      destruct (String.eqb_spec key "output.bias"); done.
    - by destruct (String.eqb key k). }
  split.
  { unfold state_dict, m. cbn [hidden_layers output].
    rewrite dict_get_app_r.
    - unfold copy_. destruct Hout as (_ & _ & _ & Hob).
      destruct b as [shb db]. simpl in Hshape. simpl. by rewrite Hob, Hshape.
    - intros Hin.
      apply hidden_state_keys_from in Hin as (i & name & _ & Heq).
      rewrite hidden_key_unfold in Heq. discriminate Heq. }
  split; [done|]. split; [done|].
  destruct (load_after_save (after_alloc st m n) (length (models st)) m)
    as (m' & n' & Hload & Hst & Hd').
  - apply lookup_after_alloc.
  - by rewrite Hd.
  - destruct ls0; [|done]. by simpl in Hls.
  - by rewrite Hd.
  - by rewrite Hd.
  - exists m'. eexists. split.
    + rewrite Hload. f_equal. simpl. rewrite length_app. simpl. f_equal. lia.
    + split; [|by rewrite Hd' , Hd].
      replace (S (length (models st)))
        with (length (models (write_file "checkpoint.pth" (checkpoint m)
                                (after_alloc st m n)))).
      * apply lookup_after_alloc.
      * simpl. rewrite length_app. simpl. lia.
Qed.

Lemma failed_load_leaves_the_saved_model_witness :
  let st := counting_world in
  let model := length (models st) in
  let st0 := (fc_model_Network 784 10 [400; 200; 100]%Z st).2 in
  let r1 := try_this (VDict (tensor_vals record512)) st in
  ∃ m0 b,
    models st0 !! model = Some m0 ∧
    dict_get "output.bias" record512 = Some b ∧
    let m := mkNetwork (hidden_layers m0)
               (mkLinear (in_features (output m0)) (out_features (output m0))
                  (weight (output m0)) b) in
    r1.1 = Raise (RuntimeError size_mismatches) ∧
    models r1.2 !! model = Some m ∧
    (∀ a, a < model → models r1.2 !! a = models st !! a) ∧
    (∀ key, key ≠ "output.bias" →
       dict_get key (state_dict m) = dict_get key (state_dict m0)) ∧
    dict_get "output.bias" (state_dict m) = Some (copy_ (bias (output m0)) b) ∧
    descriptor m = arch400 ∧
    shapes_match arch400 (state_dict m) ∧
    ∃ m' st3,
      load_checkpoint "checkpoint.pth" (save_checkpoint model r1.2).2 =
        (Ok (S model), st3) ∧
      models st3 !! S model = Some m' ∧
      state_dict m' = state_dict m ∧ descriptor m' = arch400.
Proof.
  apply (failed_load_leaves_the_saved_model counting_world record512).
  vm_compute. reflexivity.
Defined.
